(** * ACN 4.0 events application: cart store and registration workflow

    Shallow embedding of
      - [src/components/events/hooks/useCart.ts]            (module [useCart]),
      - [EventCard] (second unit of [components/PaymentModal.tsx])
                                                            (module [EventCard]),
      - [src/components/events/components/EventDetailPage.tsx]
                                                            (module [EventDetailPage]),
    followed by the properties of the cart store and of the registration
    workflow.

    Conventions of the embedding.
      - A JavaScript [number] that counts or prices things is an integer [Z];
        module [NumberCart] is the part of the hook that stores a quantity
        as it is given, over IEEE 754 doubles.
      - A React state cell is its rendered value together with the queue of
        [setState] actions issued since that render; a re-render folds the
        queue over the value.
      - [localStorage] is a finite map from keys to strings, and every call
        made to it is recorded in order.
      - The hosted store (Supabase) is a record of tables; every request
        consumes one entry of a fault schedule that says whether the request
        comes back with an error. *)

From Stdlib Require Import ZArith List Bool String.
From Stdlib Require PrimFloat FloatOps SpecFloat.
From stdpp Require Import base gmap strings list fin_maps.
Import ListNotations.
Local Open Scope string_scope.
Local Open Scope list_scope.
Local Open Scope Z_scope.

(* ===================================================================== *)
(** * The cart hook, [useCart.ts] *)
(* ===================================================================== *)

Module useCart.

(** [interface CartItem]. The three optional fields are [string | null]. *)
Record CartItem : Type := {
  id : string;
  title : string;
  price : Z;
  quantity : Z;
  image_url : option string;
  venue : option string;
  schedule : option string
}.

(** The [event: any] argument of [addToCart]: the fields the hook reads. *)
Record Event : Type := {
  event_id : string;
  event_title : string;
  event_image_url : option string;
  event_venue : option string;
  event_schedule : option string
}.

(** An argument of [setItems]: a value, or an updater applied to the pending
    state ([setItems(prevItems => ...)]). *)
Inductive SetStateAction : Type :=
| Value (v : list CartItem)
| Updater (f : list CartItem -> list CartItem).

Definition basicStateReducer (state : list CartItem) (a : SetStateAction)
  : list CartItem :=
  match a with
  | Value v => v
  | Updater f => f state
  end.

(** One instance of the hook between two renders: [items] is the array the
    closures of the current render see, [queue] the actions already passed
    to [setItems] and not yet rendered. *)
Record Hook : Type := {
  items : list CartItem;
  queue : list SetStateAction
}.

Definition rendered (its : list CartItem) : Hook :=
  {| items := its; queue := [] |}.

Definition setItems (a : SetStateAction) (h : Hook) : Hook :=
  {| items := items h; queue := queue h ++ [a] |}.

(** The state the next render will show. *)
Definition pendingItems (h : Hook) : list CartItem :=
  fold_left basicStateReducer (queue h) (items h).

(** ** The operations returned by the hook *)

(** The updater passed to [setItems] by [addToCart] (lines 43-68). *)
Definition addToCart_updater (event : Event) (price' : Z)
    (prevItems : list CartItem) : list CartItem :=
  let existingItem :=
    find (fun item => String.eqb (id item) (event_id event)) prevItems in
  match existingItem with
  | Some _ =>
      let updatedItems :=
        map (fun item =>
               if String.eqb (id item) (event_id event)
               then {| id := id item; title := title item;
                       price := price item;
                       quantity := quantity item + 1;
                       image_url := image_url item; venue := venue item;
                       schedule := schedule item |}
               else item) prevItems in
      updatedItems
  | None =>
      let newItem :=
        {| id := event_id event; title := event_title event;
           price := price'; quantity := 1;
           image_url := event_image_url event;
           venue := event_venue event;
           schedule := event_schedule event |} in
      let newItems := prevItems ++ [newItem] in
      newItems
  end.

(** [addToCart(event, price = 100)]: an omitted price is [None]. *)
Definition addToCart (event : Event) (price' : option Z) (h : Hook) : Hook :=
  let price' := match price' with Some p => p | None => 100 end in
  setItems (Updater (addToCart_updater event price')) h.

Definition removeFromCart (id' : string) (h : Hook) : Hook :=
  setItems
    (Value (List.filter (fun item => negb (String.eqb (id item) id')) (items h)))
    h.

Definition updateQuantity (id' : string) (quantity' : Z) (h : Hook) : Hook :=
  if quantity' <=? 0 then removeFromCart id' h
  else
    setItems
      (Value (map (fun item =>
                     if String.eqb (id item) id'
                     then {| id := id item; title := title item;
                             price := price item;
                             quantity := quantity';
                             image_url := image_url item; venue := venue item;
                             schedule := schedule item |}
                     else item) (items h)))
      h.

Definition clearCart (h : Hook) : Hook := setItems (Value []) h.

Definition getTotalItems (h : Hook) : Z :=
  fold_left (fun total item => total + quantity item) (items h) 0.

Definition getTotalPrice (h : Hook) : Z :=
  fold_left (fun total item => total + price item * quantity item) (items h) 0.

Definition isInCart (id' : string) (h : Hook) : bool :=
  existsb (fun item => String.eqb (id item) id') (items h).

(** The four mutations, as data, and sessions of calls and renders. *)
Inductive Op : Type :=
| AddToCart (event : Event) (price' : option Z)
| RemoveFromCart (id' : string)
| UpdateQuantity (id' : string) (quantity' : Z)
| ClearCart.

Definition call (o : Op) (h : Hook) : Hook :=
  match o with
  | AddToCart event price' => addToCart event price' h
  | RemoveFromCart id' => removeFromCart id' h
  | UpdateQuantity id' quantity' => updateQuantity id' quantity' h
  | ClearCart => clearCart h
  end.

(** Re-render of the hook alone (storage left aside). *)
Definition rerender (h : Hook) : Hook := rendered (pendingItems h).

Inductive Step : Type :=
| Call (o : Op)
| Render.

Definition step (h : Hook) (s : Step) : Hook :=
  match s with
  | Call o => call o h
  | Render => rerender h
  end.

Definition run (ss : list Step) (h : Hook) : Hook := fold_left step ss h.

(** A user action: one call from a rendered cart, then the re-render. *)
Definition act (o : Op) (its : list CartItem) : list CartItem :=
  items (rerender (call o (rendered its))).

(** ** Initialisation and the persistence effect *)

(** Calls made to [localStorage], in the order they are made. *)
Inductive StorageCall : Type :=
| GetItem (key : string)
| SetItem (key value : string).

Record Browser : Type := {
  localStorage : gmap string string;
  calls : list StorageCall
}.

Definition getItem (key : string) (b : Browser) : option string * Browser :=
  (localStorage b !! key,
   {| localStorage := localStorage b; calls := calls b ++ [GetItem key] |}).

Definition setItem (key value : string) (b : Browser) : Browser :=
  {| localStorage := <[key := value]> (localStorage b);
     calls := calls b ++ [SetItem key value] |}.

Section Persistence.

(** [JSON.stringify] and [JSON.parse] on cart arrays are the platform's;
    [JSON_parse] answers [None] where [JSON.parse] throws. *)
Variable JSON_stringify : list CartItem -> string.
Variable JSON_parse : string -> option (list CartItem).

(** The initialiser given to [useState] (lines 14-26). The empty string is
    falsy, like a missing key. *)
Definition initialItems (b : Browser) : list CartItem * Browser :=
  let '(savedCart, b) := getItem "cart" b in
  match savedCart with
  | Some s =>
      if String.eqb s "" then ([], b)
      else match JSON_parse s with
           | Some parsed => (parsed, b)
           | None => ([], b)
           end
  | None => ([], b)
  end.

(** The body of the effect on [items] (lines 29-38). *)
Definition saveEffect (its : list CartItem) (b : Browser) : Browser :=
  if (0 <? length its)%nat then setItem "cart" (JSON_stringify its) b
  else b.

(** First render: the initialiser runs, then the effect. *)
Definition mount (b : Browser) : Hook * Browser :=
  let '(its, b) := initialItems b in
  (rendered its, saveEffect its b).

(** Re-render. Every action the hook enqueues carries a freshly built
    array, so [items] changes identity exactly when the queue is not empty;
    only then does the effect run again. The initialiser never does. *)
Definition render (hb : Hook * Browser) : Hook * Browser :=
  let '(h, b) := hb in
  match queue h with
  | [] => (h, b)
  | _ :: _ =>
      let its := pendingItems h in
      (rendered its, saveEffect its b)
  end.

(** A session of the hook in its browser: calls only enqueue, renders run
    the effect. *)
Definition step_in (hb : Hook * Browser) (s : Step) : Hook * Browser :=
  match s with
  | Call o => (call o (fst hb), snd hb)
  | Render => render hb
  end.

Definition run_in (ss : list Step) (hb : Hook * Browser) : Hook * Browser :=
  fold_left step_in ss hb.

End Persistence.

(** Number of reads of a key in a call log. *)
Definition reads (key : string) (cs : list StorageCall) : nat :=
  length (List.filter (fun c => match c with
                                | GetItem k => String.eqb k key
                                | SetItem _ _ => false
                                end) cs).

End useCart.

(* ===================================================================== *)
(** * JavaScript values and the collaborators of the registration workflow *)
(* ===================================================================== *)

(** The values a profile column or [checkProfileComplete] can hold. *)
Inductive JsValue : Type :=
| JsNull
| JsBool (b : bool)
| JsString (s : string).

(** Truthiness: [null], [false] and the empty string are falsy. *)
Definition truthy (v : JsValue) : bool :=
  match v with
  | JsNull => false
  | JsBool b => b
  | JsString s => negb (String.eqb s "")
  end.

(** [a && b] evaluates to [a] when [a] is falsy and to [b] otherwise. *)
Definition js_and (a b : JsValue) : JsValue := if truthy a then b else a.

Module Auth.
(** The [user] of [useAuth()]: only its [id] is read. *)
Record User : Type := { id : string }.
End Auth.

Module Toast.
Inductive ToastType : Type := success | error | warning.
(** The argument of [addToast]. *)
Record Toast : Type := {
  type : ToastType;
  title : string;
  message : string;
  duration : option Z
}.
End Toast.

Module Supabase.

Record Profile : Type := {
  name : JsValue;
  phone : JsValue;
  rollno : JsValue;
  branch : JsValue
}.

(** A row of [registrations]: the two columns the client writes. *)
Record Registration : Type := {
  event_id : string;
  user_id : string
}.

(** A row of [events] as [EventDetailPage] selects it. *)
Record Event : Type := {
  id : string;
  title : string;
  description : string;
  tagline : string;
  image_url : option string;
  rules : option string;
  schedule : option string;
  venue : option string;
  capacity : option Z;
  price : option Z;
  registration_deadline : option string;
  contact_email : option string;
  contact_phone : option string;
  prerequisites : option string;
  created_at : string
}.

(** Requests the two components issue. *)
Inductive Request : Type :=
| SelectProfile (uid : string)
| SelectEvent (eid : string)
| SelectRegistration (eid uid : string)
| DeleteRegistration (eid uid : string)
| InsertRegistration (eid uid : string).

(** What a [catch] clause can receive. *)
Inductive Error : Type :=
| RequestFailed (r : Request)
| NoSingleRow (r : Request)
| QRCodeFailed.

(** The [{ data, error }] object a request resolves to. *)
Record Response (A : Type) : Type := {
  data : option A;
  error : option Error
}.
Arguments data {A} _.
Arguments error {A} _.

End Supabase.

(** Everything outside the component that a handler can touch or that can
    observe it. *)
Inductive Effect : Type :=
| Requested (r : Supabase.Request)
| AddToast (t : Toast.Toast)
| ConsoleError (label : string) (e : Supabase.Error)
| QRCodeToDataURL (text : string).

Record World : Type := {
  profiles : gmap string Supabase.Profile;
  events : gmap string Supabase.Event;
  registrations : list Supabase.Registration;
  (** whether the next requests fail, in the order they are issued; after
      the schedule is used up requests succeed *)
  faults : list bool;
  trace : list Effect
}.

Definition emit (e : Effect) (w : World) : World :=
  {| profiles := profiles w; events := events w;
     registrations := registrations w; faults := faults w;
     trace := trace w ++ [e] |}.

Definition next_fault (w : World) : bool * World :=
  match faults w with
  | [] => (false, w)
  | f :: fs =>
      (f, {| profiles := profiles w; events := events w;
             registrations := registrations w; faults := fs;
             trace := trace w |})
  end.

Definition set_registrations (rs : list Supabase.Registration) (w : World)
  : World :=
  {| profiles := profiles w; events := events w;
     registrations := rs; faults := faults w; trace := trace w |}.

Definition matches (eid uid : string) (r : Supabase.Registration) : bool :=
  String.eqb (Supabase.event_id r) eid && String.eqb (Supabase.user_id r) uid.

(* ===================================================================== *)
(** * Asynchronous handlers: state, effects and exceptions *)
(* ===================================================================== *)

(** How a block ends: normally with a value, or by a [throw]. *)
Inductive Completion (A : Type) : Type :=
| Normal (a : A)
| Thrown (e : Supabase.Error).
Arguments Normal {A} _.
Arguments Thrown {A} _.

(** A handler over the state cells [St] of its component. Handlers of one
    component run one after the other, each to completion. *)
Definition Async (St A : Type) : Type :=
  St -> World -> Completion A * St * World.

Section AsyncOps.
Context {St : Type}.

Definition ret {A} (a : A) : Async St A := fun s w => (Normal a, s, w).

Definition bind {A B} (m : Async St A) (k : A -> Async St B) : Async St B :=
  fun s w =>
    match m s w with
    | (Normal a, s', w') => k a s' w'
    | (Thrown e, s', w') => (Thrown e, s', w')
    end.

Definition throw {A} (e : Supabase.Error) : Async St A :=
  fun s w => (Thrown e, s, w).

(** [try { m } catch (e) { handler e }] *)
Definition try_catch {A} (m : Async St A) (handler : Supabase.Error -> Async St A)
  : Async St A :=
  fun s w =>
    match m s w with
    | (Normal a, s', w') => (Normal a, s', w')
    | (Thrown e, s', w') => handler e s' w'
    end.

(** [try { m } finally { fin }] *)
Definition try_finally {A} (m : Async St A) (fin : Async St unit) : Async St A :=
  fun s w =>
    match m s w with
    | (c, s', w') =>
        match fin s' w' with
        | (Normal _, s'', w'') => (c, s'', w'')
        | (Thrown e, s'', w'') => (Thrown e, s'', w'')
        end
    end.

Definition get_state : Async St St := fun s w => (Normal s, s, w).
Definition set_state (f : St -> St) : Async St unit :=
  fun s w => (Normal tt, f s, w).
Definition get_world : Async St World := fun s w => (Normal w, s, w).
Definition set_world (f : World -> World) : Async St unit :=
  fun s w => (Normal tt, s, f w).

Definition addToast (t : Toast.Toast) : Async St unit :=
  set_world (emit (AddToast t)).

Definition console_error (label : string) (e : Supabase.Error) : Async St unit :=
  set_world (emit (ConsoleError label e)).

(** Issue a request: it is recorded and the fault schedule says whether it
    fails. A failed request changes no table. *)
Definition request (r : Supabase.Request) : Async St bool :=
  fun s w =>
    let w := emit (Requested r) w in
    let '(failed, w) := next_fault w in
    (Normal failed, s, w).

End AsyncOps.

Notation "'let*' x ':=' m 'in' k" := (bind m (fun x => k))
  (at level 10, x name, m at level 100, k at level 200, only parsing).
Notation "m '>>' k" := (bind m (fun _ => k))
  (at level 100, k at level 200, right associativity, only parsing).

Section Requests.
Context {St : Type}.
Import Supabase.

Definition failed_response {A} (r : Request) : Response A :=
  {| data := None; error := Some (RequestFailed r) |}.

(** [from('profiles').select('*').eq('id', uid).single()]: no row is an
    error. *)
Definition profiles_select_single (uid : string) : Async St (Response Profile) :=
  let r := SelectProfile uid in
  let* failed := request r in
  if (failed : bool) then ret (failed_response r)
  else
    let* w := get_world in
    match profiles w !! uid with
    | Some p => ret {| data := Some p; error := None |}
    | None => ret {| data := None; error := Some (NoSingleRow r) |}
    end.

(** [from('events').select(...).eq('id', eid).single()] *)
Definition events_select_single (eid : string) : Async St (Response Event) :=
  let r := SelectEvent eid in
  let* failed := request r in
  if (failed : bool) then ret (failed_response r)
  else
    let* w := get_world in
    match events w !! eid with
    | Some e => ret {| data := Some e; error := None |}
    | None => ret {| data := None; error := Some (NoSingleRow r) |}
    end.

(** [from('registrations').select('id').eq(..).eq(..).maybeSingle()]: no row
    is [data = null] without error, several rows are an error. *)
Definition registrations_select_maybeSingle (eid uid : string)
  : Async St (Response Registration) :=
  let r := SelectRegistration eid uid in
  let* failed := request r in
  if (failed : bool) then ret (failed_response r)
  else
    let* w := get_world in
    match List.filter (matches eid uid) (registrations w) with
    | [] => ret {| data := None; error := None |}
    | [row] => ret {| data := Some row; error := None |}
    | _ :: _ :: _ => ret {| data := None; error := Some (NoSingleRow r) |}
    end.

(** [from('registrations').delete().eq('event_id', eid).eq('user_id', uid)] *)
Definition registrations_delete (eid uid : string) : Async St (Response unit) :=
  let r := DeleteRegistration eid uid in
  let* failed := request r in
  if (failed : bool) then ret (failed_response r)
  else
    let* w := get_world in
    set_world (set_registrations
                 (List.filter (fun row => negb (matches eid uid row))
                              (registrations w))) >>
    ret {| data := None; error := None |}.

(** [from('registrations').insert({ event_id: eid, user_id: uid })] *)
Definition registrations_insert (eid uid : string) : Async St (Response unit) :=
  let r := InsertRegistration eid uid in
  let* failed := request r in
  if (failed : bool) then ret (failed_response r)
  else
    let* w := get_world in
    set_world (set_registrations
                 (registrations w ++ [{| event_id := eid; user_id := uid |}])) >>
    ret {| data := None; error := None |}.

(** [checkProfileComplete], the same text in both components. *)
Definition checkProfileComplete (user : option Auth.User) : Async St JsValue :=
  match user with
  | None => ret (JsBool false)
  | Some user =>
      try_catch
        (let* res := profiles_select_single (Auth.id user) in
         match error res, data res with
         | None, Some profile =>
             ret (js_and (js_and (js_and (name profile) (phone profile))
                                 (rollno profile))
                         (branch profile))
         | _, _ => ret (JsBool false)
         end)
        (fun _ => ret (JsBool false))
  end.

End Requests.

(* ===================================================================== *)
(** * [EventCard] *)
(* ===================================================================== *)

Module EventCard.

(** [interface Event] of the card. *)
Record Event : Type := {
  id : string;
  title : string;
  tagline : string;
  image_url : option string;
  venue : option string;
  schedule : option string;
  price : option Z
}.

(** The two [useState] cells. *)
Record State : Type := {
  isRegistered : bool;
  registering : bool
}.

Definition initial : State := {| isRegistered := false; registering := false |}.

Definition setIsRegistered (b : bool) : Async State unit :=
  set_state (fun s => {| isRegistered := b; registering := registering s |}).

Definition setRegistering (b : bool) : Async State unit :=
  set_state (fun s => {| isRegistered := isRegistered s; registering := b |}).

Section Component.
Variable user : option Auth.User.
Variable event : Event.

Definition checkRegistration : Async State unit :=
  match user with
  | None => ret tt
  | Some user =>
      try_catch
        (let* res := registrations_select_maybeSingle (id event) (Auth.id user) in
         match Supabase.error res with
         | Some error => throw error
         | None => setIsRegistered (bool_decide (is_Some (Supabase.data res)))
         end)
        (fun error => console_error "Error checking registration:" error)
  end.

(** The effect on [[user, event.id]]. *)
Definition registrationEffect : Async State unit :=
  match user with
  | Some _ =>
      if negb (String.eqb (id event) "") then checkRegistration
      else setIsRegistered false
  | None => setIsRegistered false
  end.

(** [handleRegister] (lines 280-353). [e.stopPropagation()] only concerns
    the click event. [isRegistered] is the value of the render the handler
    was created in. *)
Definition handleRegister : Async State unit :=
  let* rendered := get_state in
  match user with
  | None =>
      addToast {| Toast.type := Toast.warning;
                  Toast.title := "Login Required";
                  Toast.message := "Please sign in before registering for events";
                  Toast.duration := Some 4000 |}
  | Some user =>
      let* isProfileComplete := checkProfileComplete (Some user) in
      if negb (truthy isProfileComplete) then
        addToast {| Toast.type := Toast.warning;
                    Toast.title := "Profile Incomplete";
                    Toast.message := "Please complete your profile (Name, Phone, Roll No, Branch) before registering";
                    Toast.duration := Some 5000 |}
      else
        setRegistering true >>
        try_finally
          (try_catch
             (if isRegistered rendered then
                let* res := registrations_delete (id event) (Auth.id user) in
                match Supabase.error res with
                | Some error => throw error
                | None =>
                    setIsRegistered false >>
                    addToast {| Toast.type := Toast.success;
                                Toast.title := "Unregistered";
                                Toast.message :=
                                  String.append "You have been unregistered from "
                                                (title event);
                                Toast.duration := Some 3000 |}
                end
              else
                let* res := registrations_insert (id event) (Auth.id user) in
                match Supabase.error res with
                | Some error => throw error
                | None =>
                    setIsRegistered true >>
                    addToast {| Toast.type := Toast.success;
                                Toast.title := "Registration Successful!";
                                Toast.message :=
                                  String.append "You have been registered for "
                                                (title event);
                                Toast.duration := Some 3000 |}
                end)
             (fun error =>
                console_error "Error with registration:" error >>
                addToast {| Toast.type := Toast.error;
                            Toast.title := "Registration Failed";
                            Toast.message := "Please try again later";
                            Toast.duration := Some 4000 |}))
          (setRegistering false)
  end.

End Component.
End EventCard.

(* ===================================================================== *)
(** * [EventDetailPage] *)
(* ===================================================================== *)

Module EventDetailPage.

(** The [useState] cells the registration workflow reads or writes (the
    favourite marker and the registration count have cells of their own,
    which it never touches). *)
Record State : Type := {
  event : option Supabase.Event;
  loading : bool;
  isRegistered : bool;
  registering : bool;
  showPaymentQR : bool;
  paymentQR : string
}.

Definition initial : State :=
  {| event := None; loading := true; isRegistered := false;
     registering := false; showPaymentQR := false; paymentQR := "" |}.

Definition setEvent (e : option Supabase.Event) : Async State unit :=
  set_state (fun s =>
    {| event := e; loading := loading s; isRegistered := isRegistered s;
       registering := registering s; showPaymentQR := showPaymentQR s;
       paymentQR := paymentQR s |}).

Definition setLoading (b : bool) : Async State unit :=
  set_state (fun s =>
    {| event := event s; loading := b; isRegistered := isRegistered s;
       registering := registering s; showPaymentQR := showPaymentQR s;
       paymentQR := paymentQR s |}).

Definition setIsRegistered (b : bool) : Async State unit :=
  set_state (fun s =>
    {| event := event s; loading := loading s; isRegistered := b;
       registering := registering s; showPaymentQR := showPaymentQR s;
       paymentQR := paymentQR s |}).

Definition setRegistering (b : bool) : Async State unit :=
  set_state (fun s =>
    {| event := event s; loading := loading s; isRegistered := isRegistered s;
       registering := b; showPaymentQR := showPaymentQR s;
       paymentQR := paymentQR s |}).

Definition setShowPaymentQR (b : bool) : Async State unit :=
  set_state (fun s =>
    {| event := event s; loading := loading s; isRegistered := isRegistered s;
       registering := registering s; showPaymentQR := b;
       paymentQR := paymentQR s |}).

Definition setPaymentQR (url : string) : Async State unit :=
  set_state (fun s =>
    {| event := event s; loading := loading s; isRegistered := isRegistered s;
       registering := registering s; showPaymentQR := showPaymentQR s;
       paymentQR := url |}).

Section Component.
(** [QRCode.toDataURL] of the [qrcode] package: the image it draws. *)
Variable QRCode_image : string -> string.
Variable user : option Auth.User.
(** The [:eventId] segment of the route [/event/:eventId]. *)
Variable eventId : string.

(** [await QRCode.toDataURL(text, ...)]; like a request it can fail. *)
Definition QRCode_toDataURL (text : string) : Async State string :=
  fun s w =>
    let w := emit (QRCodeToDataURL text) w in
    let '(failed, w) := next_fault w in
    if (failed : bool) then (Thrown Supabase.QRCodeFailed, s, w)
    else (Normal (QRCode_image text), s, w).

Definition fetchEvent : Async State unit :=
  if String.eqb eventId "" then ret tt
  else
    setLoading true >>
    try_finally
      (try_catch
         (let* res := events_select_single eventId in
          match Supabase.error res with
          | Some error => throw error
          | None => setEvent (Supabase.data res)
          end)
         (fun error =>
            console_error "Error fetching event:" error >>
            addToast {| Toast.type := Toast.error;
                        Toast.title := "Error";
                        Toast.message := "Failed to load event details";
                        Toast.duration := None |}))
      (setLoading false).

Definition checkRegistration : Async State unit :=
  match user with
  | None => ret tt
  | Some user =>
      if String.eqb eventId "" then ret tt
      else
        try_catch
          (let* res := registrations_select_maybeSingle eventId (Auth.id user) in
           match Supabase.error res with
           | Some error => throw error
           | None => setIsRegistered (bool_decide (is_Some (Supabase.data res)))
           end)
          (fun error => console_error "Error checking registration:" error)
  end.

(** The part of the effect on [[eventId, user]] that concerns the event and
    the registration. *)
Definition loadEffect : Async State unit :=
  if negb (String.eqb eventId "") then
    fetchEvent >>
    match user with
    | Some _ => checkRegistration
    | None => ret tt
    end
  else ret tt.

Definition generatePaymentQR : Async State unit :=
  let* rendered := get_state in
  match event rendered with
  | None => ret tt
  | Some event =>
      let upiId := "campusevents@upi" in
      let amount := "100" in
      let upiUrl :=
        String.concat ""
          ["upi://pay?pa="; upiId; "&pn=Campus Events&am="; amount;
           "&cu=INR&tn=Payment for "; Supabase.title event] in
      try_catch
        (let* qrDataUrl := QRCode_toDataURL upiUrl in
         setPaymentQR qrDataUrl >>
         setShowPaymentQR true)
        (fun error =>
           console_error "Error generating QR code:" error >>
           addToast {| Toast.type := Toast.error;
                       Toast.title := "Error";
                       Toast.message := "Failed to generate payment QR code";
                       Toast.duration := None |})
  end.

(** [handleRegister] (lines 256-311). *)
Definition handleRegister : Async State unit :=
  let* rendered := get_state in
  match user with
  | None =>
      addToast {| Toast.type := Toast.warning;
                  Toast.title := "Login Required";
                  Toast.message := "Please sign in before registering for events";
                  Toast.duration := Some 4000 |}
  | Some user =>
      let* isProfileComplete := checkProfileComplete (Some user) in
      if negb (truthy isProfileComplete) then
        addToast {| Toast.type := Toast.warning;
                    Toast.title := "Profile Incomplete";
                    Toast.message := "Please complete your profile (Name, Phone, Roll No, Branch) before registering";
                    Toast.duration := Some 5000 |}
      else
        setRegistering true >>
        try_finally
          (try_catch
             (if isRegistered rendered then
                let* res := registrations_delete eventId (Auth.id user) in
                match Supabase.error res with
                | Some error => throw error
                | None =>
                    setIsRegistered false >>
                    addToast {| Toast.type := Toast.success;
                                Toast.title := "Unregistered";
                                Toast.message :=
                                  "You have been unregistered from this event";
                                Toast.duration := None |}
                end
              else
                generatePaymentQR)
             (fun error =>
                console_error "Error with registration:" error >>
                addToast {| Toast.type := Toast.error;
                            Toast.title := "Error";
                            Toast.message := "Failed to process registration";
                            Toast.duration := None |}))
          (setRegistering false)
  end.

(** [confirmPayment] (lines 313-340), the "Payment Done" button. *)
Definition confirmPayment : Async State unit :=
  match user with
  | None => ret tt
  | Some user =>
      if String.eqb eventId "" then ret tt
      else
        try_catch
          (let* res := registrations_insert eventId (Auth.id user) in
           match Supabase.error res with
           | Some error => throw error
           | None =>
               setIsRegistered true >>
               setShowPaymentQR false >>
               addToast {| Toast.type := Toast.success;
                           Toast.title := "Registration Successful!";
                           Toast.message :=
                             "You have been registered for this event";
                           Toast.duration := None |}
           end)
          (fun error =>
             console_error "Error confirming registration:" error >>
             addToast {| Toast.type := Toast.error;
                         Toast.title := "Error";
                         Toast.message := "Failed to confirm registration";
                         Toast.duration := None |})
  end.

End Component.
End EventDetailPage.

(* ===================================================================== *)
(** * The cart panel, [Cart.tsx] *)
(* ===================================================================== *)

Module Cart.

(** The cells of [Cart]: its instance of the hook, and [showPayment]. *)
Record State : Type := {
  cart : useCart.Hook;
  showPayment : bool
}.

(** The prop callbacks a handler invokes. *)
Inductive Callback : Type := onClose.

(** [handlePayment] (lines 16-19). *)
Definition handlePayment (s : State) : State :=
  if (length (useCart.items (cart s)) =? 0)%nat then s
  else {| cart := cart s; showPayment := true |}.

(** [handlePaymentSuccess] (lines 21-25). *)
Definition handlePaymentSuccess (s : State) : State * list Callback :=
  ({| cart := useCart.clearCart (cart s); showPayment := false |}, [onClose]).

(** The [amount] prop given to [PaymentModal] (line 195). *)
Definition paymentAmount (s : State) : Z := useCart.getTotalPrice (cart s).

(** ** [CartItem], one row of the panel *)

(** The cells of a row. *)
Record ItemState : Type := {
  isRemoving : bool;
  quantity : Z
}.

(** [useState(item.quantity || 1)]: a zero quantity is falsy. *)
Definition initialItem (item : useCart.CartItem) : ItemState :=
  {| isRemoving := false;
     quantity := if useCart.quantity item =? 0 then 1
                 else useCart.quantity item |}.

(** The [removeFromCart] that the render [r] of the panel created, called
    while the hook is [h]: it filters the [items] of its own render. *)
Definition onRemove (r : useCart.Hook) (id' : string) (h : useCart.Hook)
  : useCart.Hook :=
  useCart.setItems
    (useCart.Value
       (List.filter (fun item => negb (String.eqb (useCart.id item) id'))
                    (useCart.items r)))
    h.

(** A pending [setTimeout(() => onRemove(item.id), 300)]: the render whose
    [onRemove] the callback holds, and the id. *)
Record Timer : Type := {
  render_of : useCart.Hook;
  target : string
}.

(** [handleRemove] (lines 216-219), in the render [r] of the panel. *)
Definition handleRemove (item : useCart.CartItem) (r : useCart.Hook)
    (s : ItemState) : ItemState * Timer :=
  ({| isRemoving := true; quantity := quantity s |},
   {| render_of := r; target := useCart.id item |}).

(** The timer fires while the hook is [h]. *)
Definition fire (t : Timer) (h : useCart.Hook) : useCart.Hook :=
  onRemove (render_of t) (target t) h.

(** [handleQuantityChange] (lines 221-225); [onUpdateQuantity] is the
    [updateQuantity] of the current render [h] of the panel. *)
Definition handleQuantityChange (item : useCart.CartItem) (newQuantity : Z)
    (s : ItemState) (h : useCart.Hook) : ItemState * useCart.Hook :=
  if newQuantity <? 1 then (s, h)
  else ({| isRemoving := isRemoving s; quantity := newQuantity |},
        useCart.updateQuantity (useCart.id item) newQuantity h).

(** The two buttons of the quantity control (lines 284 and 291). *)
Inductive Button : Type := Minus | Plus.

Definition click (item : useCart.CartItem) (b : Button)
    (s : ItemState) (h : useCart.Hook) : ItemState * useCart.Hook :=
  match b with
  | Minus => handleQuantityChange item (quantity s - 1) s h
  | Plus => handleQuantityChange item (quantity s + 1) s h
  end.

(** Clicks on the control of one row, each followed by the re-render of the
    panel. *)
Definition clicks (item : useCart.CartItem) (bs : list Button)
    (sh : ItemState * useCart.Hook) : ItemState * useCart.Hook :=
  fold_left (fun sh b =>
               let '(s, h) := click item b (fst sh) (snd sh) in
               (s, useCart.rerender h))
            bs sh.

End Cart.

(* ===================================================================== *)
(** * The cart button of [EventCard] *)
(* ===================================================================== *)

Module EventCardCart.

(** The card's event as the [event: any] argument of [addToCart]. *)
Definition cartEvent (event : EventCard.Event) : useCart.Event :=
  {| useCart.event_id := EventCard.id event;
     useCart.event_title := EventCard.title event;
     useCart.event_image_url := EventCard.image_url event;
     useCart.event_venue := EventCard.venue event;
     useCart.event_schedule := EventCard.schedule event |}.

(** [handleAddToCart] (lines 355-364), over the card's instance of the
    hook. *)
Definition handleAddToCart (event : EventCard.Event)
  : Async useCart.Hook unit :=
  set_state (useCart.addToCart (cartEvent event) (Some 100)) >>
  addToast {| Toast.type := Toast.success;
              Toast.title := "Added to Cart";
              Toast.message := String.append (EventCard.title event)
                                             " added to cart";
              Toast.duration := Some 2000 |}.

(** The cart button is rendered when [!isInCart(event.id)] (line 428). *)
Definition cartButtonShown (event : EventCard.Event) (h : useCart.Hook) : bool :=
  negb (useCart.isInCart (EventCard.id event) h).

End EventCardCart.

(* ===================================================================== *)
(** * [PaymentModal] *)
(* ===================================================================== *)

Module PaymentModal.

Inductive PaymentStatus : Type := pending | processing | success.

(** The two [useState] cells. *)
Record State : Type := {
  paymentStatus : PaymentStatus;
  razorpayLoaded : bool
}.

Definition initial : State :=
  {| paymentStatus := pending; razorpayLoaded := false |}.

(** What the component does to the page and to its parent. *)
Inductive Effect : Type :=
| AppendScript (src : string)
| RazorpayOpen (amount : Z) (currency : string)
| SetTimeout (ms : Z)
| OnSuccess.

(** [loadRazorpay] (lines 29-34). *)
Definition loadRazorpay : list Effect :=
  [AppendScript "https://checkout.razorpay.com/v1/checkout.js"].

(** The effect on [[isOpen]] (lines 23-27). *)
Definition openEffect (isOpen : bool) (s : State) : State * list Effect :=
  if isOpen && negb (razorpayLoaded s) then (s, loadRazorpay) else (s, []).

(** [script.onload]. *)
Definition onload (s : State) : State :=
  {| paymentStatus := paymentStatus s; razorpayLoaded := true |}.

(** [handleRazorpayPayment] (lines 36-70): the checkout is opened with the
    amount in paise. *)
Definition handleRazorpayPayment (amount : Z) (s : State) : State * list Effect :=
  if negb (razorpayLoaded s) then (s, [])
  else (s, [RazorpayOpen (amount * 100) "INR"]).

(** [options.handler]: the checkout reports a payment. *)
Definition handler (s : State) : State * list Effect :=
  ({| paymentStatus := success; razorpayLoaded := razorpayLoaded s |},
   [SetTimeout 2000]).

(** The callback of that timeout. *)
Definition afterSuccess (s : State) : State * list Effect :=
  ({| paymentStatus := pending; razorpayLoaded := razorpayLoaded s |},
   [OnSuccess]).

(** [options.modal.ondismiss]. *)
Definition ondismiss (s : State) : State :=
  {| paymentStatus := pending; razorpayLoaded := razorpayLoaded s |}.

(** The pay button is disabled when
    [!razorpayLoaded || paymentStatus === 'processing'] (line 146). *)
Definition payDisabled (s : State) : bool :=
  negb (razorpayLoaded s) ||
  match paymentStatus s with processing => true | _ => false end.

(** What can happen to a mounted modal. *)
Inductive Input : Type :=
| IsOpen (isOpen : bool)
| ScriptLoaded
| ClickPay
| Paid
| Dismissed
| TimeoutFired.

Definition step (amount : Z) (sl : State * list Effect) (i : Input)
  : State * list Effect :=
  let '(s, log) := sl in
  match i with
  | IsOpen isOpen => let '(s, es) := openEffect isOpen s in (s, log ++ es)
  | ScriptLoaded => (onload s, log)
  | ClickPay =>
      if payDisabled s then (s, log)
      else let '(s, es) := handleRazorpayPayment amount s in (s, log ++ es)
  | Paid => let '(s, es) := handler s in (s, log ++ es)
  | Dismissed => (ondismiss s, log)
  | TimeoutFired => let '(s, es) := afterSuccess s in (s, log ++ es)
  end.

Definition run (amount : Z) (inputs : list Input) : State * list Effect :=
  fold_left (step amount) inputs (initial, []).

End PaymentModal.

(* ===================================================================== *)
(** * [BottomNavigation] and [CartIcon] *)
(* ===================================================================== *)

Module BottomNavigation.

(** The [user] read here: only [email], which may be missing. *)
Record User : Type := { email : option string }.

(** [hay.includes(needle)] *)
Fixpoint includes (needle hay : string) : bool :=
  String.prefix needle hay ||
  match hay with
  | EmptyString => false
  | String _ rest => includes needle rest
  end.

(** [user?.email?.includes('admin') || user?.email === 'admin@campus.com']
    (line 27); a missing user or email gives a falsy left operand. *)
Definition isAdmin (user : option User) : bool :=
  match user with
  | Some {| email := Some e |} =>
      includes "admin" e || String.eqb e "admin@campus.com"
  | _ => false
  end.

(** A child of a JSX element as the component computes it: a string, or a
    number that React turns into text when it renders. *)
Inductive Child : Type :=
| Text (s : string)
| Number (n : Z).

(** The child of the count over the cart button (lines 75-81), [None] when
    [totalItems > 0 && ...] renders nothing. *)
Definition badge (h : useCart.Hook) : option Child :=
  let totalItems := useCart.getTotalItems h in
  if 0 <? totalItems
  then Some (if 9 <? totalItems then Text "9+" else Number totalItems)
  else None.

End BottomNavigation.

Module CartIcon.

(** The child of the count over the cart icon: as in [BottomNavigation],
    with 99 for 9. *)
Definition badge (h : useCart.Hook) : option BottomNavigation.Child :=
  let totalItems := useCart.getTotalItems h in
  if 0 <? totalItems
  then Some (if 99 <? totalItems then BottomNavigation.Text "99+"
             else BottomNavigation.Number totalItems)
  else None.

End CartIcon.

(* ===================================================================== *)
(** * [HomePage]: the welcome toast and the sign-in dialog flag *)
(* ===================================================================== *)

Module HomePage.

(** The [user] read here: its [email]. *)
Record User : Type := { email : string }.

(** The effect on [[user, authLoading]] (lines 63-77), over
    [sessionStorage]. A missing or empty value is falsy. *)
Definition welcomeEffect (user : option User) (authLoading : bool)
  : Async (gmap string string) unit :=
  match user with
  | Some user =>
      if negb authLoading then
        let* sessionStorage := get_state in
        match sessionStorage !! "welcomeToastShown" with
        | Some (String _ _) => ret tt
        | _ =>
            addToast {| Toast.type := Toast.success;
                        Toast.title := "Access Granted!";
                        Toast.message :=
                          String.append "Welcome to ACN TechFest 4.0, "
                                        (email user);
                        Toast.duration := Some 4000 |} >>
            set_state (fun sessionStorage =>
                         <["welcomeToastShown" := "true"]> sessionStorage)
        end
      else ret tt
  | None =>
      if negb authLoading then
        set_state (fun sessionStorage => delete "welcomeToastShown" sessionStorage)
      else ret tt
  end.

(** [String(b)] for a boolean. *)
Definition String_of_boolean (b : bool) : string :=
  if b then "true" else "false".

(** The initialiser of [isAuthModalOpen] (lines 47-50). *)
Definition initialAuthModalOpen (b : useCart.Browser) : bool * useCart.Browser :=
  let '(savedState, b) := useCart.getItem "authModalOpen" b in
  (match savedState with
   | Some s => String.eqb s "true"
   | None => false
   end, b).

(** The effect on [[isAuthModalOpen]] (lines 108-110). *)
Definition authModalEffect (isAuthModalOpen : bool) (b : useCart.Browser)
  : useCart.Browser :=
  useCart.setItem "authModalOpen" (String_of_boolean isAuthModalOpen) b.

End HomePage.

(* ===================================================================== *)
(** * [useCart.ts] over doubles *)
(* ===================================================================== *)

(** [CartItem] declares [quantity: number] and [updateQuantity] takes a
    [number]: an IEEE 754 double, which need not be an integer. This module
    is [removeFromCart] and [updateQuantity] (lines 71-86) over doubles; each
    function gives the array the call passes to [setItems], computed from the
    [items] of the render, which is the cart the next render shows. *)
Module NumberCart.
Import PrimFloat.

Record CartItem : Type := {
  id : string;
  title : string;
  price : float;
  quantity : float;
  image_url : option string;
  venue : option string;
  schedule : option string
}.

Definition removeFromCart (id' : string) (items : list CartItem)
  : list CartItem :=
  List.filter (fun item => negb (String.eqb (id item) id')) items.

(** [quantity <= 0] is false for a positive fraction and for [NaN]. *)
Definition updateQuantity (id' : string) (quantity' : float)
    (items : list CartItem) : list CartItem :=
  if (quantity' <=? 0)%float then removeFromCart id' items
  else
    map (fun item =>
           if String.eqb (id item) id'
           then {| id := id item; title := title item;
                   price := price item;
                   quantity := quantity';
                   image_url := image_url item; venue := venue item;
                   schedule := schedule item |}
           else item) items.

(** [Number.isInteger]: a finite double without fractional part, read off
    its mantissa and exponent. *)
Definition Number_isInteger (x : float) : bool :=
  match FloatOps.Prim2SF x with
  | SpecFloat.S754_zero _ => true
  | SpecFloat.S754_finite _ m e => (0 <=? e) || (Z.pos m mod 2 ^ (- e) =? 0)
  | _ => false
  end.

End NumberCart.

(* ===================================================================== *)
(** * Vocabulary of the properties *)
(* ===================================================================== *)

Section CartVocabulary.
Import useCart.

(** [new] is [old] up to its quantity. *)
Definition same_entry (old new : CartItem) : Prop :=
  id new = id old /\ title new = title old /\ price new = price old /\
  image_url new = image_url old /\ venue new = venue old /\
  schedule new = schedule old.

(** The spec's totals: the sum of the quantities, and the sum of
    price times quantity. *)
Fixpoint sum_of_quantities (its : list CartItem) : Z :=
  match its with
  | [] => 0
  | item :: rest => quantity item + sum_of_quantities rest
  end.

Fixpoint sum_of_price_times_quantity (its : list CartItem) : Z :=
  match its with
  | [] => 0
  | item :: rest => price item * quantity item + sum_of_price_times_quantity rest
  end.

(** The cart invariant: every quantity is at least one. *)
Definition quantities_positive (its : list CartItem) : Prop :=
  Forall (fun item => 1 <= quantity item) its.

(** An action that keeps the invariant whatever state it is applied to. *)
Definition keeps_positive (a : SetStateAction) : Prop :=
  forall state, quantities_positive state ->
                quantities_positive (basicStateReducer state a).

(** A cart used to exercise the properties: A at 100 once, B at 50 twice. *)
Definition sample_item (i : string) (p q : Z) : CartItem :=
  {| id := i; title := String.append "Event " i; price := p; quantity := q;
     image_url := None; venue := Some "Main hall"; schedule := None |}.

Definition sample_cart : list CartItem :=
  [sample_item "A" 100 1; sample_item "B" 50 2].

Definition sample_event (i : string) : Event :=
  {| event_id := i; event_title := String.append "Event " i;
     event_image_url := None; event_venue := Some "Main hall";
     event_schedule := None |}.

(** A serialiser that keeps the ids, and a parser that gives nothing back,
    to run the persistence properties on. *)
Definition sample_stringify (its : list CartItem) : string :=
  String.concat "," (map id its).

Definition sample_parse (s : string) : option (list CartItem) := None.

Definition sample_browser : Browser :=
  {| localStorage := {["cart" := "A,B"]}; calls := [] |}.

End CartVocabulary.

Section RegistrationVocabulary.

(** Number of [registrations] rows for an event and a user. *)
Definition row_count (eid uid : string) (w : World) : nat :=
  length (List.filter (matches eid uid) (registrations w)).

(** The spec's complete profile: the four fields are non-empty. *)
Definition complete (p : Supabase.Profile) : Prop :=
  truthy (Supabase.name p) = true /\ truthy (Supabase.phone p) = true /\
  truthy (Supabase.rollno p) = true /\ truthy (Supabase.branch p) = true.

(** State and world a handler leaves behind. *)
Definition exec {St A} (m : Async St A) (sw : St * World) : St * World :=
  let '(_, s, w) := m (fst sw) (snd sw) in (s, w).

Definition login_required : Toast.Toast :=
  {| Toast.type := Toast.warning;
     Toast.title := "Login Required";
     Toast.message := "Please sign in before registering for events";
     Toast.duration := Some 4000 |}.

Definition profile_incomplete : Toast.Toast :=
  {| Toast.type := Toast.warning;
     Toast.title := "Profile Incomplete";
     Toast.message := "Please complete your profile (Name, Phone, Roll No, Branch) before registering";
     Toast.duration := Some 5000 |}.

(** The row the client writes for an event and a user. *)
Definition registration_row (eid uid : string) : Supabase.Registration :=
  {| Supabase.event_id := eid; Supabase.user_id := uid |}.








(** A world used to exercise the properties: one user with a complete
    profile, one event, no registration, no scheduled fault. *)
Definition sample_user : Auth.User := {| Auth.id := "u1" |}.

Definition sample_profile : Supabase.Profile :=
  {| Supabase.name := JsString "Asha"; Supabase.phone := JsString "9000000000";
     Supabase.rollno := JsString "21CS001"; Supabase.branch := JsString "CSE" |}.

Definition sample_row : Supabase.Event :=
  {| Supabase.id := "e1"; Supabase.title := "Capture the flag";
     Supabase.description := ""; Supabase.tagline := "";
     Supabase.image_url := None; Supabase.rules := None;
     Supabase.schedule := None; Supabase.venue := None;
     Supabase.capacity := None; Supabase.price := Some 100;
     Supabase.registration_deadline := None; Supabase.contact_email := None;
     Supabase.contact_phone := None; Supabase.prerequisites := None;
     Supabase.created_at := "" |}.

Definition sample_card : EventCard.Event :=
  {| EventCard.id := "e1"; EventCard.title := "Capture the flag";
     EventCard.tagline := ""; EventCard.image_url := None;
     EventCard.venue := None; EventCard.schedule := None;
     EventCard.price := Some 100 |}.

Definition sample_world (fs : list bool) : World :=
  {| profiles := {["u1" := sample_profile]};
     events := {["e1" := sample_row]};
     registrations := []; faults := fs; trace := [] |}.

Definition sample_image (text : string) : string :=
  String.append "data:image/png;base64," text.


(** No [console.error] among recorded effects. *)
Definition nothing_logged (t : list Effect) : bool :=
  forallb (fun e => match e with ConsoleError _ _ => false | _ => true end) t.

End RegistrationVocabulary.

Section FurtherVocabulary.
Import useCart.

(** No two entries of a cart share an id. *)
Definition unique_ids (its : list CartItem) : Prop := NoDup (map id its).

(** An action that keeps ids unique whatever state it is applied to. *)
Definition keeps_unique (a : SetStateAction) : Prop :=
  forall state, unique_ids state -> unique_ids (basicStateReducer state a).

Definition is_addToCart (o : Op) : bool :=
  match o with
  | AddToCart _ _ => true
  | _ => false
  end.

(** The key a call to [localStorage] is about. *)
Definition key_of (c : StorageCall) : string :=
  match c with
  | GetItem key => key
  | SetItem key _ => key
  end.

(** A parser that knows the sample cart, to run reloads on. *)
Definition sample_parse_cart (s : string) : option (list CartItem) :=
  if String.eqb s (sample_stringify sample_cart) then Some sample_cart
  else None.

(** The entries of a cart that carry an id, and the sum of unit prices. *)
Definition entries_with (target : string) (its : list CartItem)
  : list CartItem :=
  List.filter (fun item => String.eqb (id item) target) its.

Fixpoint sum_of_prices (its : list CartItem) : Z :=
  match its with
  | [] => 0
  | item :: rest => price item + sum_of_prices rest
  end.

End FurtherVocabulary.

Section NumberVocabulary.
Import PrimFloat.

(** The spec's positive integer, for a double. *)
Definition positive_integer (x : float) : bool :=
  NumberCart.Number_isInteger x && (0 <? x)%float.

Definition positive_integers (its : list NumberCart.CartItem) : bool :=
  forallb (fun item => positive_integer (NumberCart.quantity item)) its.

(** The sample cart over doubles: A at 100 once, B at 50 twice. *)
Definition number_item (i : string) (p q : float) : NumberCart.CartItem :=
  {| NumberCart.id := i; NumberCart.title := String.append "Event " i;
     NumberCart.price := p; NumberCart.quantity := q;
     NumberCart.image_url := None; NumberCart.venue := Some "Main hall";
     NumberCart.schedule := None |}.

Definition number_cart : list NumberCart.CartItem :=
  [number_item "A" 100 1; number_item "B" 50 2].

End NumberVocabulary.

Section FurtherRegistrationVocabulary.

(** A handler that ends normally from every state and world. *)
Definition ends_normally {St} (m : Async St unit) : Prop :=
  forall s w, exists s' w', m s w = (Normal tt, s', w').

(** The rows of [registrations] for an event and a user. *)
Definition rows_of (eid uid : string) (w : World) : list Supabase.Registration :=
  List.filter (matches eid uid) (registrations w).

(** Number of toasts among recorded effects. *)
Definition toast_count (t : list Effect) : nat :=
  length (List.filter (fun e => match e with AddToast _ => true | _ => false end) t).

(** The welcome effect run once per change of [[user, authLoading]]. *)
Definition welcome_run (inputs : list (option HomePage.User * bool))
    (sw : gmap string string * World) : gmap string string * World :=
  fold_left (fun sw i => exec (HomePage.welcomeEffect (fst i) (snd i)) sw)
            inputs sw.

(** A checkout opened with the amount of the modal in paise, in rupees. *)
Definition opens_in_paise (amount : Z) (e : PaymentModal.Effect) : Prop :=
  match e with
  | PaymentModal.RazorpayOpen a c => a = amount * 100 /\ c = "INR"
  | _ => True
  end.

Definition is_open (e : PaymentModal.Effect) : bool :=
  match e with
  | PaymentModal.RazorpayOpen _ _ => true
  | _ => false
  end.

End FurtherRegistrationVocabulary.

(* ===================================================================== *)
(** * Properties of the cart store *)
(* ===================================================================== *)

Section CartProperties.
Import useCart.

Lemma same_entry_refl item : same_entry item item.
Proof. repeat split. Qed.

Lemma find_none_existsb {A} (f : A -> bool) (l : list A) :
  find f l = None <-> existsb f l = false.
Proof.
  induction l as [|x l IH]; simpl; [tauto|].
  destruct (f x); simpl; [split; discriminate|exact IH].
Qed.

Lemma Forall2_map_pointwise {A B} (f : A -> B) (R : A -> B -> Prop) (l : list A) :
  (forall x, In x l -> R x (f x)) -> Forall2 R l (map f l).
Proof.
  induction l as [|x l IH]; simpl; intros H; constructor.
  - apply H; now left.
  - apply IH; intros y Hy; apply H; now right.
Qed.

Lemma pendingItems_setItems a h :
  pendingItems (setItems a h) = basicStateReducer (pendingItems h) a.
Proof. unfold pendingItems, setItems; simpl. now rewrite fold_left_app. Qed.

Lemma act_addToCart its e p :
  act (AddToCart e p) its =
  addToCart_updater e (match p with Some p => p | None => 100 end) its.
Proof. reflexivity. Qed.

Lemma filter_not_in_cart target (its : list CartItem) :
  existsb (fun item => String.eqb (id item) target)
          (List.filter (fun item => negb (String.eqb (id item) target)) its)
  = false.
Proof.
  induction its as [|x its IH]; simpl; [reflexivity|].
  destruct (String.eqb (id x) target) eqn:E; simpl; [exact IH|].
  now rewrite E.
Qed.

Lemma addToCart_updater_present e p its :
  existsb (fun item => String.eqb (id item) (event_id e)) its = true ->
  Forall2 (fun old new =>
             same_entry old new /\
             quantity new = (if String.eqb (id old) (event_id e)
                             then quantity old + 1 else quantity old) /\
             (id old <> event_id e -> new = old))
          its (addToCart_updater e p its).
Proof.
  intros Hin. unfold addToCart_updater.
  destruct (find _ its) eqn:Hfind.
  - apply Forall2_map_pointwise. intros x _.
    destruct (String.eqb (id x) (event_id e)) eqn:E.
    + apply String.eqb_eq in E. repeat split; simpl; auto. congruence.
    + repeat split.
  - apply find_none_existsb in Hfind. congruence.
Qed.

Lemma addToCart_updater_absent e p its :
  existsb (fun item => String.eqb (id item) (event_id e)) its = false ->
  addToCart_updater e p its =
  its ++ [{| id := event_id e; title := event_title e; price := p;
             quantity := 1; image_url := event_image_url e;
             venue := event_venue e; schedule := event_schedule e |}].
Proof.
  intros Hout. unfold addToCart_updater.
  apply find_none_existsb in Hout. now rewrite Hout.
Qed.

Lemma addToCart_updater_last e p its item :
  existsb (fun it => String.eqb (id it) (event_id e)) its = false ->
  id item = event_id e ->
  addToCart_updater e p (its ++ [item]) =
  its ++ [{| id := id item; title := title item; price := price item;
             quantity := quantity item + 1; image_url := image_url item;
             venue := venue item; schedule := schedule item |}].
Proof.
  intros Hout Hid. unfold addToCart_updater.
  assert (Hfind : find (fun it => String.eqb (id it) (event_id e)) (its ++ [item])
                  = Some item).
  { clear p. induction its as [|x its IH]; simpl in *.
    - rewrite Hid, String.eqb_refl. reflexivity.
    - apply orb_false_elim in Hout as [Hx Hrest]. rewrite Hx. now apply IH. }
  rewrite Hfind, map_app. simpl. rewrite Hid, String.eqb_refl. f_equal.
  clear Hfind. induction its as [|x its IH]; simpl in *; [reflexivity|].
  apply orb_false_elim in Hout as [Hx Hrest]. rewrite Hx. f_equal. now apply IH.
Qed.

(** C1. Adding an event whose id is already in the cart raises the quantity
    of the entry with that id by one and keeps the number of entries; adding
    an event whose id is not in the cart appends one entry with quantity 1
    and the given price. Adding the same id a second time, after a re-render
    or in the same batch and whatever price is passed, leaves that single
    entry with quantity 2. *)
Theorem addToCart_increments_or_appends (its : list CartItem) (e : Event) (p : Z) :
  (isInCart (event_id e) (rendered its) = true ->
   length (act (AddToCart e (Some p)) its) = length its /\
   Forall2 (fun old new =>
              same_entry old new /\
              quantity new = (if String.eqb (id old) (event_id e)
                              then quantity old + 1 else quantity old))
           its (act (AddToCart e (Some p)) its))
  /\
  (isInCart (event_id e) (rendered its) = false ->
   exists item,
     act (AddToCart e (Some p)) its = its ++ [item] /\
     id item = event_id e /\ title item = event_title e /\
     price item = p /\ quantity item = 1 /\
     forall (e2 : Event) (p2 : option Z),
       event_id e2 = event_id e ->
       exists item2,
         act (AddToCart e2 p2) (act (AddToCart e (Some p)) its)
           = its ++ [item2] /\
         items (rerender (addToCart e2 p2 (addToCart e (Some p) (rendered its))))
           = its ++ [item2] /\
         same_entry item item2 /\ quantity item2 = 2).
Proof.
  unfold isInCart; simpl. split; intros Hin.
  - rewrite act_addToCart.
    pose proof (addToCart_updater_present e p its Hin) as HF.
    split.
    + symmetry. exact (Forall2_length _ _ _ HF).
    + eapply Forall2_impl; [exact HF|]. intros old new (Hs & Hq & _). now split.
  - rewrite act_addToCart, (addToCart_updater_absent e p its Hin).
    eexists. split; [reflexivity|]. simpl. repeat split.
    intros e2 p2 Hid.
    eexists. rewrite act_addToCart.
    assert (Hout2 : existsb (fun it => String.eqb (id it) (event_id e2)) its = false)
      by now rewrite Hid.
    split; [|split].
    + rewrite (addToCart_updater_last e2 _ its _ Hout2) by (simpl; congruence).
      simpl. reflexivity.
    + unfold rerender, addToCart. rewrite !pendingItems_setItems. simpl.
      unfold pendingItems. simpl.
      rewrite (addToCart_updater_absent e p its Hin).
      rewrite (addToCart_updater_last e2 _ its _ Hout2) by (simpl; congruence).
      simpl. reflexivity.
    + simpl. repeat split.
Qed.

Lemma addToCart_increments_or_appends_witness :
  length (act (AddToCart (sample_event "A") (Some 70)) sample_cart)
    = length sample_cart /\
  exists item,
    act (AddToCart (sample_event "C") (Some 70)) sample_cart
      = sample_cart ++ [item] /\
    price item = 70 /\ quantity item = 1.
Proof.
  split.
  - apply (proj1 (addToCart_increments_or_appends
                    sample_cart (sample_event "A") 70)).
    reflexivity.
  - destruct (proj2 (addToCart_increments_or_appends
                       sample_cart (sample_event "C") 70) eq_refl)
      as (item & Happ & _ & _ & Hp & Hq & _).
    exists item. repeat split; assumption.
Defined.

(** C10. When the id is already in the cart, [addToCart] keeps the stored
    unit price of that entry whatever price is passed (or omitted), keeps
    every field but the quantity of every entry, and leaves entries with
    another id as they are. *)
Theorem addToCart_keeps_price_and_others
    (its : list CartItem) (e : Event) (p : option Z) :
  isInCart (event_id e) (rendered its) = true ->
  Forall2 (fun old new =>
             id new = id old /\ title new = title old /\
             price new = price old /\
             (id old <> event_id e -> new = old))
          its (act (AddToCart e p) its).
Proof.
  unfold isInCart; simpl. intros Hin. rewrite act_addToCart.
  eapply Forall2_impl; [exact (addToCart_updater_present e _ its Hin)|].
  intros old new ((Hi & Ht & Hp & _) & _ & Hne). auto.
Qed.

Lemma addToCart_keeps_price_and_others_witness :
  Forall2 (fun old new =>
             id new = id old /\ title new = title old /\
             price new = price old /\
             (id old <> "A" -> new = old))
          sample_cart (act (AddToCart (sample_event "A") (Some 999)) sample_cart).
Proof.
  apply (addToCart_keeps_price_and_others sample_cart (sample_event "A") (Some 999)).
  reflexivity.
Defined.

Lemma fold_left_quantities (its : list CartItem) (acc : Z) :
  fold_left (fun total item => total + quantity item) its acc
  = acc + sum_of_quantities its.
Proof.
  revert acc. induction its as [|x its IH]; intros acc; simpl; [lia|].
  rewrite IH. lia.
Qed.

Lemma fold_left_amounts (its : list CartItem) (acc : Z) :
  fold_left (fun total item => total + price item * quantity item) its acc
  = acc + sum_of_price_times_quantity its.
Proof.
  revert acc. induction its as [|x its IH]; intros acc; simpl; [lia|].
  rewrite IH. lia.
Qed.

(** C2. In every state a session of calls and re-renders can reach,
    [getTotalItems] is the sum of the quantities and [getTotalPrice] the sum
    of price times quantity; a cart holding A (price 100, quantity 1) and
    B (price 50, quantity 2) has 3 items in total for a price of 200. *)
Theorem totals_are_sums (h0 : Hook) (ss : list Step) :
  getTotalItems (run ss h0) = sum_of_quantities (items (run ss h0)) /\
  getTotalPrice (run ss h0) = sum_of_price_times_quantity (items (run ss h0)) /\
  (forall a b : CartItem,
     id a = "A" -> price a = 100 -> quantity a = 1 ->
     id b = "B" -> price b = 50 -> quantity b = 2 ->
     getTotalItems (rendered [a; b]) = 3 /\
     getTotalPrice (rendered [a; b]) = 200).
Proof.
  unfold getTotalItems, getTotalPrice. split; [|split].
  - now rewrite fold_left_quantities.
  - now rewrite fold_left_amounts.
  - intros a b _ Hpa Hqa _ Hpb Hqb. simpl. rewrite Hpa, Hqa, Hpb, Hqb.
    split; reflexivity.
Qed.

Lemma totals_are_sums_witness :
  getTotalItems (rendered sample_cart) = 3 /\
  getTotalPrice (rendered sample_cart) = 200.
Proof.
  apply (proj2 (proj2 (totals_are_sums (rendered []) [])));
    reflexivity.
Defined.

(** C3. From a rendered cart, [updateQuantity(id, n)] with [n >= 1] gives
    the entries with that id the quantity [n] and leaves the others as they
    are; with [n <= 0] it is [removeFromCart(id)]; after
    [updateQuantity(id, 0)] the entries with that id are gone and
    [isInCart(id)] is false. *)
Theorem updateQuantity_sets_or_removes
    (its : list CartItem) (target : string) (n : Z) :
  (1 <= n ->
   Forall2 (fun old new =>
              if String.eqb (id old) target
              then same_entry old new /\ quantity new = n
              else new = old)
           its (act (UpdateQuantity target n) its))
  /\
  (n <= 0 ->
   forall h : Hook, updateQuantity target n h = removeFromCart target h)
  /\
  (forall h : Hook,
     items (rerender (updateQuantity target 0 h))
       = List.filter (fun item => negb (String.eqb (id item) target)) (items h) /\
     isInCart target (rerender (updateQuantity target 0 h)) = false).
Proof.
  split; [|split].
  - intros Hn. unfold act, call, updateQuantity.
    destruct (n <=? 0) eqn:E; [apply Z.leb_le in E; lia|].
    unfold rerender. rewrite pendingItems_setItems. simpl.
    apply Forall2_map_pointwise. intros x _.
    destruct (String.eqb (id x) target); [|reflexivity].
    split; [repeat split|reflexivity].
  - intros Hn h. unfold updateQuantity.
    apply Z.leb_le in Hn. now rewrite Hn.
  - intros h. unfold updateQuantity, removeFromCart, rerender, isInCart. simpl.
    rewrite pendingItems_setItems. simpl. split; [reflexivity|].
    apply filter_not_in_cart.
Qed.

Lemma updateQuantity_sets_or_removes_witness :
  Forall2 (fun old new =>
             if String.eqb (id old) "B"
             then same_entry old new /\ quantity new = 5
             else new = old)
          sample_cart (act (UpdateQuantity "B" 5) sample_cart) /\
  updateQuantity "B" (-1) (rendered sample_cart)
    = removeFromCart "B" (rendered sample_cart).
Proof.
  split.
  - apply (proj1 (updateQuantity_sets_or_removes sample_cart "B" 5)). lia.
  - apply (proj1 (proj2 (updateQuantity_sets_or_removes sample_cart "B" (-1)))).
    lia.
Defined.

Lemma pending_positive (q : list SetStateAction) (state : list CartItem) :
  Forall keeps_positive q -> quantities_positive state ->
  quantities_positive (fold_left basicStateReducer q state).
Proof.
  revert state. induction q as [|a q IH]; intros state Hq Hs; simpl; [exact Hs|].
  inversion Hq; subst. apply IH; [assumption|]. now apply H1.
Qed.

Lemma keeps_positive_value (v : list CartItem) :
  quantities_positive v -> keeps_positive (Value v).
Proof. intros Hv state _. exact Hv. Qed.

Lemma keeps_positive_addToCart e p : keeps_positive (Updater (addToCart_updater e p)).
Proof.
  intros state Hs. simpl. unfold addToCart_updater.
  destruct (find _ state).
  - unfold quantities_positive in *. rewrite Forall_map.
    eapply Forall_impl; [exact Hs|]. intros x Hx. simpl in *.
    destruct (String.eqb (id x) (event_id e)); simpl; lia.
  - apply Forall_app. split; [exact Hs|]. constructor; [simpl; lia|constructor].
Qed.

Lemma filter_positive (f : CartItem -> bool) (its : list CartItem) :
  quantities_positive its -> quantities_positive (List.filter f its).
Proof.
  unfold quantities_positive. rewrite !List.Forall_forall.
  intros H x Hx. apply filter_In in Hx as [Hx _]. now apply H.
Qed.

(** The invariant of a hook between renders: the rendered entries have
    positive quantities and so has whatever the queue will produce. *)
Lemma call_keeps_positive (o : Op) (h : Hook) :
  quantities_positive (items h) -> Forall keeps_positive (queue h) ->
  quantities_positive (items (call o h)) /\
  Forall keeps_positive (queue (call o h)).
Proof.
  intros Hi Hq.
  assert (Hadd : forall a, keeps_positive a ->
            quantities_positive (items (setItems a h)) /\
            Forall keeps_positive (queue (setItems a h))).
  { intros a Ha. split; [exact Hi|]. simpl. apply Forall_app. split; auto. }
  destruct o as [e p|target|target n|]; simpl.
  - apply Hadd, keeps_positive_addToCart.
  - apply Hadd, keeps_positive_value, filter_positive, Hi.
  - unfold updateQuantity. destruct (n <=? 0) eqn:E.
    + apply Hadd, keeps_positive_value, filter_positive, Hi.
    + apply Z.leb_gt in E. apply Hadd, keeps_positive_value.
      unfold quantities_positive in *. rewrite Forall_map.
      eapply Forall_impl; [exact Hi|]. intros x Hx. simpl in *.
      destruct (String.eqb (id x) target); simpl; lia.
  - apply Hadd, keeps_positive_value. constructor.
Qed.

Lemma run_keeps_positive (ss : list Step) (h : Hook) :
  quantities_positive (items h) -> Forall keeps_positive (queue h) ->
  quantities_positive (items (run ss h)) /\
  Forall keeps_positive (queue (run ss h)).
Proof.
  revert h. induction ss as [|s ss IH]; intros h Hi Hq; simpl; [now split|].
  destruct s as [o|]; simpl.
  - destruct (call_keeps_positive o h Hi Hq) as [Hi' Hq']. now apply IH.
  - apply IH; simpl; [|constructor]. now apply pending_positive.
Qed.

Section NumberProperties.
Import PrimFloat.

Lemma filter_positive_integers (f : NumberCart.CartItem -> bool)
    (nits : list NumberCart.CartItem) :
  positive_integers nits = true -> positive_integers (List.filter f nits) = true.
Proof.
  unfold positive_integers. rewrite !forallb_forall.
  intros H x Hx. apply filter_In in Hx as [Hx _]. now apply H.
Qed.

(** C4, as amended: with integer quantities. Starting from a cart whose
    quantities are integers of at least one, every session of [addToCart],
    [removeFromCart], [clearCart] and [updateQuantity] calls with an integer
    quantity, and of re-renders, shows only quantities of at least one; an
    update to quantity 0 leaves no entry with that id, hence no entry of
    quantity 0. Over doubles, [updateQuantity] of an id that is in the cart
    keeps the quantities positive integers exactly when the quantity given
    passes [quantity <= 0], and the entries are removed, or is a positive
    integer itself. *)
Theorem cart_quantities_stay_positive (its : list CartItem) (ss : list Step)
    (nits : list NumberCart.CartItem) (target : string) (q : float) :
  (quantities_positive its ->
   quantities_positive (items (run ss (rendered its))) /\
   (forall target item,
      In item (act (UpdateQuantity target 0) (items (run ss (rendered its)))) ->
      id item <> target /\ 1 <= quantity item))
  /\
  (positive_integers nits = true ->
   (q <=? 0)%float = true \/ positive_integer q = true ->
   positive_integers (NumberCart.updateQuantity target q nits) = true)
  /\
  (existsb (fun item => String.eqb (NumberCart.id item) target) nits = true ->
   (q <=? 0)%float = false -> positive_integer q = false ->
   positive_integers (NumberCart.updateQuantity target q nits) = false).
Proof.
  split; [|split].
  - intros Hpos.
    destruct (run_keeps_positive ss (rendered its) Hpos) as [Hi _]; [constructor|].
    split; [exact Hi|].
    intros target' item Hin. unfold act, call, updateQuantity in Hin. simpl in Hin.
    apply filter_In in Hin as [Hin Hne]. split.
    + intros Heq. apply negb_true_iff in Hne.
      apply String.eqb_neq in Hne. contradiction.
    + unfold quantities_positive in Hi. rewrite List.Forall_forall in Hi.
      now apply Hi.
  - intros Hpos Hq. unfold NumberCart.updateQuantity.
    destruct (q <=? 0)%float eqn:E.
    + now apply filter_positive_integers.
    + destruct Hq as [Hq|Hq]; [discriminate|].
      unfold positive_integers in *. rewrite forallb_forall in *.
      intros x Hx. apply in_map_iff in Hx as (y & <- & Hy).
      destruct (String.eqb (NumberCart.id y) target); simpl.
      * exact Hq.
      * now apply Hpos.
  - intros Hin E Hq. unfold NumberCart.updateQuantity. rewrite E.
    unfold positive_integers.
    induction nits as [|x nits IH]; simpl in *; [discriminate|].
    destruct (String.eqb (NumberCart.id x) target); simpl in *.
    + now rewrite Hq.
    + rewrite (IH Hin). apply andb_false_r.
Qed.

Lemma cart_quantities_stay_positive_witness :
  quantities_positive sample_cart /\
  quantities_positive
    (items (run [Call (UpdateQuantity "A" 0); Render;
                 Call (AddToCart (sample_event "B") None); Render]
                (rendered sample_cart))) /\
  positive_integers (NumberCart.updateQuantity "A" 3%float number_cart) = true.
Proof.
  assert (H : quantities_positive sample_cart).
  { constructor; [simpl; lia|]. constructor; [simpl; lia|]. constructor. }
  split; [exact H|].
  destruct (cart_quantities_stay_positive sample_cart
              [Call (UpdateQuantity "A" 0); Render;
               Call (AddToCart (sample_event "B") None); Render]
              number_cart "A" 3%float) as (HZ & Hnum & _).
  split.
  - apply (proj1 (HZ H)).
  - apply Hnum; [reflexivity|]. right. reflexivity.
Defined.

(** C4 as stated fails: [updateQuantity] keeps whatever number passes
    [quantity <= 0]. From the cart of A once and B twice, whose quantities
    are positive integers, [updateQuantity("A", 0.5)] shows A with quantity
    0.5 and [updateQuantity("A", NaN)] shows A with quantity [NaN]; neither
    is a positive integer. *)
Lemma updateQuantity_stores_fraction_and_NaN :
  positive_integers number_cart = true /\
  map NumberCart.quantity (NumberCart.updateQuantity "A" 0.5%float number_cart)
    = [0.5%float; 2%float] /\
  positive_integers (NumberCart.updateQuantity "A" 0.5%float number_cart)
    = false /\
  map NumberCart.quantity
      (NumberCart.updateQuantity "A" nan number_cart)
    = [nan; 2%float] /\
  positive_integers (NumberCart.updateQuantity "A" nan number_cart)
    = false.
Proof. repeat split; vm_compute; reflexivity. Qed.

End NumberProperties.

Section PersistenceProperties.
Variable JSON_stringify : list CartItem -> string.
Variable JSON_parse : string -> option (list CartItem).

Lemma call_enqueues (o : Op) (h : Hook) : exists a, call o h = setItems a h.
Proof.
  destruct o as [e p|target|target n|]; simpl; unfold addToCart, removeFromCart,
    updateQuantity, clearCart, removeFromCart; try (eexists; reflexivity).
  destruct (n <=? 0); eexists; reflexivity.
Qed.

Lemma render_setItems (a : SetStateAction) (h : Hook) (b : Browser) :
  render JSON_stringify (setItems a h, b) =
  (rendered (pendingItems (setItems a h)),
   saveEffect JSON_stringify (pendingItems (setItems a h)) b).
Proof.
  unfold render. simpl. destruct (queue h); reflexivity.
Qed.

Lemma reads_app key (cs cs' : list StorageCall) :
  reads key (cs ++ cs') = (reads key cs + reads key cs')%nat.
Proof. unfold reads. now rewrite List.filter_app, length_app. Qed.

Lemma reads_saveEffect key (its : list CartItem) (b : Browser) :
  reads key (calls (saveEffect JSON_stringify its b)) = reads key (calls b).
Proof.
  unfold saveEffect. destruct (0 <? length its)%nat; [|reflexivity].
  simpl. rewrite reads_app. unfold reads at 2. simpl. lia.
Qed.

Lemma reads_render key (hb : Hook * Browser) :
  reads key (calls (snd (render JSON_stringify hb)))
  = reads key (calls (snd hb)).
Proof.
  destruct hb as [h b]. unfold render. simpl.
  destruct (queue h); simpl; [reflexivity|apply reads_saveEffect].
Qed.

Lemma reads_run_in key (ss : list Step) (hb : Hook * Browser) :
  reads key (calls (snd (run_in JSON_stringify ss hb)))
  = reads key (calls (snd hb)).
Proof.
  revert hb. induction ss as [|s ss IH]; intros hb; [reflexivity|].
  unfold run_in in *. simpl. rewrite IH.
  destruct s as [o|]; simpl; [reflexivity|apply reads_render].
Qed.

Lemma reads_mount (b : Browser) :
  reads "cart" (calls (snd (mount JSON_stringify JSON_parse b)))
  = S (reads "cart" (calls b)).
Proof.
  unfold mount, initialItems, getItem.
  destruct (localStorage b !! "cart") as [s|]; simpl.
  - destruct (String.eqb s ""); simpl.
    + rewrite reads_app. unfold reads at 2. simpl. lia.
    + destruct (JSON_parse s); simpl; rewrite ?reads_saveEffect; simpl;
        rewrite reads_app; unfold reads at 2; simpl; lia.
  - rewrite reads_app. unfold reads at 2. simpl. lia.
Qed.

(** C5. The hook reads the key [cart] once, when it mounts, and seeds its
    state with the parsed snapshot (the empty cart when the key is missing,
    empty or unreadable); no later call or re-render reads it again. The
    re-render after a mutation writes the serialised entries under [cart]
    when they are not empty, and touches the storage in no way when they
    are: after [clearCart] the stored snapshot is what it was. *)
Theorem persistence_contract
    (b : Browser) (h : Hook) (o : Op) (ss : list Step) :
  (items (fst (mount JSON_stringify JSON_parse b)) =
     match localStorage b !! "cart" with
     | Some s => if String.eqb s "" then []
                 else match JSON_parse s with Some its => its | None => [] end
     | None => []
     end /\
   reads "cart" (calls (snd (mount JSON_stringify JSON_parse b)))
     = S (reads "cart" (calls b)) /\
   reads "cart" (calls (snd (run_in JSON_stringify ss
                               (mount JSON_stringify JSON_parse b))))
     = S (reads "cart" (calls b)))
  /\
  (let its' := items (fst (render JSON_stringify (call o h, b))) in
   let b' := snd (render JSON_stringify (call o h, b)) in
   its' = pendingItems (call o h) /\
   (its' <> [] ->
    localStorage b' = <["cart" := JSON_stringify its']> (localStorage b) /\
    calls b' = calls b ++ [SetItem "cart" (JSON_stringify its')]) /\
   (its' = [] -> b' = b))
  /\
  (items (fst (render JSON_stringify (clearCart h, b))) = [] /\
   snd (render JSON_stringify (clearCart h, b)) = b).
Proof.
  split; [|split].
  - split; [|split].
    + unfold mount, initialItems, getItem.
      destruct (localStorage b !! "cart") as [s|]; simpl; [|reflexivity].
      destruct (String.eqb s ""); simpl; [reflexivity|].
      destruct (JSON_parse s); reflexivity.
    + apply reads_mount.
    + rewrite reads_run_in. apply reads_mount.
  - destruct (call_enqueues o h) as [a ->]. rewrite render_setItems. simpl.
    split; [reflexivity|]. unfold saveEffect.
    destruct (pendingItems (setItems a h)) as [|x l]; simpl.
    + split; [congruence|reflexivity].
    + split; [intros _; split; reflexivity|discriminate].
  - unfold clearCart. rewrite render_setItems, pendingItems_setItems. simpl.
    split; reflexivity.
Qed.

End PersistenceProperties.

Lemma persistence_contract_witness :
  let b' := snd (render sample_stringify
                   (call (AddToCart (sample_event "C") None) (rendered sample_cart),
                    sample_browser)) in
  localStorage b' !! "cart" = Some "A,B,C" /\
  calls b' = [SetItem "cart" "A,B,C"] /\
  snd (render sample_stringify (call ClearCart (rendered sample_cart), sample_browser))
    = sample_browser.
Proof.
  pose proof (persistence_contract sample_stringify sample_parse sample_browser
                (rendered sample_cart) (AddToCart (sample_event "C") None) [])
    as (_ & (_ & Hwrite & _) & _).
  destruct Hwrite as [Hs Hc]; [discriminate|].
  pose proof (persistence_contract sample_stringify sample_parse sample_browser
                (rendered sample_cart) ClearCart [])
    as (_ & (_ & _ & Hempty) & _).
  split; [|split].
  - rewrite Hs. reflexivity.
  - rewrite Hc. reflexivity.
  - apply Hempty. reflexivity.
Defined.

End CartProperties.

(* ===================================================================== *)
(** * Properties of the registration workflow *)
(* ===================================================================== *)

Section RegistrationProperties.

Lemma checkProfileComplete_run {St} (u : Auth.User) (s : St) (w : World) :
  checkProfileComplete (Some u) s w =
  (Normal
     (match faults w with
      | true :: _ => JsBool false
      | _ =>
          match profiles w !! Auth.id u with
          | Some p =>
              js_and (js_and (js_and (Supabase.name p) (Supabase.phone p))
                             (Supabase.rollno p))
                     (Supabase.branch p)
          | None => JsBool false
          end
      end),
   s,
   snd (next_fault (emit (Requested (Supabase.SelectProfile (Auth.id u))) w))).
Proof.
  unfold checkProfileComplete, try_catch, profiles_select_single, bind, request,
    next_fault, get_world, ret.
  destruct w as [ps es rs fs tr]; simpl.
  destruct fs as [|[|] fs]; simpl; try reflexivity;
    destruct (ps !! Auth.id u); reflexivity.
Qed.

Lemma truthy_js_and (a b : JsValue) :
  truthy (js_and a b) = truthy a && truthy b.
Proof. unfold js_and. destruct (truthy a) eqn:E; simpl; [reflexivity|exact E]. Qed.

(** C7. With no authenticated user, [handleRegister] of the card and of the
    page end normally after one "Login Required" toast and nothing else: no
    request is issued, no table and no state cell changes. *)
Theorem register_requires_login
    (event : EventCard.Event) (QRCode_image : string -> string)
    (eventId : string)
    (cs : EventCard.State) (ps : EventDetailPage.State) (w : World) :
  exists w',
    EventCard.handleRegister None event cs w = (Normal tt, cs, w') /\
    EventDetailPage.handleRegister QRCode_image None eventId ps w
      = (Normal tt, ps, w') /\
    trace w' = trace w ++ [AddToast login_required] /\
    registrations w' = registrations w /\
    profiles w' = profiles w /\ events w' = events w /\
    faults w' = faults w.
Proof. exists (emit (AddToast login_required) w). repeat split. Qed.

Lemma complete_truthy (p : Supabase.Profile) :
  truthy (js_and (js_and (js_and (Supabase.name p) (Supabase.phone p))
                         (Supabase.rollno p))
                 (Supabase.branch p)) = true <-> complete p.
Proof.
  rewrite !truthy_js_and, !andb_true_iff. unfold complete. tauto.
Qed.

Lemma sample_profile_complete : complete sample_profile.
Proof. repeat split. Qed.

Lemma next_fault_emit (e : Effect) (w : World) :
  registrations (snd (next_fault (emit e w))) = registrations w /\
  profiles (snd (next_fault (emit e w))) = profiles w /\
  events (snd (next_fault (emit e w))) = events w /\
  trace (snd (next_fault (emit e w))) = trace w ++ [e] /\
  faults (snd (next_fault (emit e w))) = tl (faults w).
Proof.
  unfold next_fault, emit. simpl. destruct (faults w); simpl; repeat split.
Qed.

(** C8. [checkProfileComplete] answers a truthy value exactly when there is
    a user, the profile query succeeds, the user's row exists and its name,
    phone, roll number and branch are all non-empty; the query changes no
    registration. When it answers a falsy value for an authenticated user,
    [handleRegister] of the card and of the page end after the profile query
    and one "Profile Incomplete" toast: the registrations and the state
    cells are as before. *)
Theorem incomplete_profile_blocks_registration
    (user : option Auth.User) (u : Auth.User)
    (event : EventCard.Event) (QRCode_image : string -> string)
    (eventId : string)
    (cs : EventCard.State) (ps : EventDetailPage.State) (w : World) :
  (exists v w1,
     checkProfileComplete user cs w = (Normal v, cs, w1) /\
     registrations w1 = registrations w /\
     (truthy v = true <->
      exists u' p, user = Some u' /\ hd false (faults w) = false /\
                   profiles w !! Auth.id u' = Some p /\ complete p))
  /\
  (forall v w1,
     checkProfileComplete (Some u) cs w = (Normal v, cs, w1) ->
     truthy v = false ->
     exists w',
       EventCard.handleRegister (Some u) event cs w = (Normal tt, cs, w') /\
       trace w' = trace w ++ [Requested (Supabase.SelectProfile (Auth.id u));
                              AddToast profile_incomplete] /\
       registrations w' = registrations w)
  /\
  (forall v w1,
     checkProfileComplete (Some u) ps w = (Normal v, ps, w1) ->
     truthy v = false ->
     exists w',
       EventDetailPage.handleRegister QRCode_image (Some u) eventId ps w
         = (Normal tt, ps, w') /\
       trace w' = trace w ++ [Requested (Supabase.SelectProfile (Auth.id u));
                              AddToast profile_incomplete] /\
       registrations w' = registrations w).
Proof.
  split; [|split].
  - destruct user as [u'|].
    + eexists _, _. rewrite checkProfileComplete_run.
      split; [reflexivity|]. split; [apply next_fault_emit|].
      destruct (faults w) as [|[|] fs] eqn:Hf; simpl.
      * destruct (profiles w !! Auth.id u') as [p|] eqn:Hp.
        -- rewrite complete_truthy. split.
           ++ intros Hc. now exists u', p.
           ++ intros (u2 & p2 & Hu & _ & Hp2 & Hc). congruence.
        -- split; [discriminate|].
           intros (u2 & p2 & Hu & _ & Hp2 & _). congruence.
      * split; [discriminate|]. intros (u2 & p2 & _ & Hfalse & _). discriminate.
      * destruct (profiles w !! Auth.id u') as [p|] eqn:Hp.
        -- rewrite complete_truthy. split.
           ++ intros Hc. now exists u', p.
           ++ intros (u2 & p2 & Hu & _ & Hp2 & Hc). congruence.
        -- split; [discriminate|].
           intros (u2 & p2 & Hu & _ & Hp2 & _). congruence.
    + exists (JsBool false), w. repeat split; try discriminate.
      intros (u2 & p2 & Hu & _). discriminate.
  - intros v w1 Hrun Hv. exists (emit (AddToast profile_incomplete) w1).
    unfold EventCard.handleRegister, bind, get_state. rewrite Hrun, Hv. simpl.
    rewrite checkProfileComplete_run in Hrun. injection Hrun as _ <-.
    destruct (next_fault_emit (Requested (Supabase.SelectProfile (Auth.id u))) w)
      as (Hr & _ & _ & Ht & _).
    repeat split; simpl; [|exact Hr]. rewrite Ht, <- app_assoc. reflexivity.
  - intros v w1 Hrun Hv. exists (emit (AddToast profile_incomplete) w1).
    unfold EventDetailPage.handleRegister, bind, get_state. rewrite Hrun, Hv. simpl.
    rewrite checkProfileComplete_run in Hrun. injection Hrun as _ <-.
    destruct (next_fault_emit (Requested (Supabase.SelectProfile (Auth.id u))) w)
      as (Hr & _ & _ & Ht & _).
    repeat split; simpl; [|exact Hr]. rewrite Ht, <- app_assoc. reflexivity.
Qed.

Lemma incomplete_profile_blocks_registration_witness :
  exists w',
    EventCard.handleRegister (Some {| Auth.id := "u2" |}) sample_card
      EventCard.initial (sample_world [])
      = (Normal tt, EventCard.initial, w') /\
    trace w' = [Requested (Supabase.SelectProfile "u2");
                AddToast profile_incomplete] /\
    registrations w' = [].
Proof.
  destruct (incomplete_profile_blocks_registration
              None {| Auth.id := "u2" |} sample_card sample_image "e1"
              EventCard.initial EventDetailPage.initial (sample_world []))
    as (_ & Hcard & _).
  apply (Hcard (JsBool false)
               (snd (next_fault (emit (Requested (Supabase.SelectProfile "u2"))
                                      (sample_world []))))).
  - reflexivity.
  - reflexivity.
Defined.

Ltac run_handler :=
  unfold registrations_delete, registrations_insert,
    registrations_select_maybeSingle, events_select_single,
    EventCard.setIsRegistered, EventCard.setRegistering,
    EventDetailPage.setIsRegistered, EventDetailPage.setRegistering,
    EventDetailPage.setShowPaymentQR, EventDetailPage.setPaymentQR,
    EventDetailPage.setEvent, EventDetailPage.setLoading,
    EventDetailPage.QRCode_toDataURL;
  unfold failed_response, addToast, console_error, request;
  unfold try_finally, try_catch, bind, get_state, set_state, get_world,
    set_world, throw, ret, next_fault;
  simpl; unfold emit, set_registrations; simpl.

(** C9, as amended. When the profile gate is passed and the delete or
    insert request on [registrations] fails, [handleRegister] of the card
    and of the page, and [confirmPayment], end normally: the failure is
    written to the console once and turned into one error toast, the failed
    request is the only one issued on [registrations], no row changes and
    [isRegistered] keeps its value. When the profile query of
    [handleRegister] fails instead, the card and the page end normally
    after the one "Profile Incomplete" warning: nothing is written to the
    console, no request is issued on [registrations], and the state cells
    and the rows are as before. *)
Theorem failed_request_is_reported_and_changes_nothing
    (u : Auth.User) (p : Supabase.Profile)
    (event : EventCard.Event) (QRCode_image : string -> string)
    (eventId : string)
    (cs : EventCard.State) (ps : EventDetailPage.State)
    (w : World) (fs : list bool) :
  (profiles w !! Auth.id u = Some p -> complete p ->
   faults w = false :: true :: fs ->
   exists w',
     let r := if EventCard.isRegistered cs
              then Supabase.DeleteRegistration (EventCard.id event) (Auth.id u)
              else Supabase.InsertRegistration (EventCard.id event) (Auth.id u) in
     EventCard.handleRegister (Some u) event cs w
       = (Normal tt,
          {| EventCard.isRegistered := EventCard.isRegistered cs;
             EventCard.registering := false |}, w') /\
     registrations w' = registrations w /\ faults w' = fs /\
     trace w' = trace w ++
       [Requested (Supabase.SelectProfile (Auth.id u));
        Requested r;
        ConsoleError "Error with registration:" (Supabase.RequestFailed r);
        AddToast {| Toast.type := Toast.error;
                    Toast.title := "Registration Failed";
                    Toast.message := "Please try again later";
                    Toast.duration := Some 4000 |}])
  /\
  (profiles w !! Auth.id u = Some p -> complete p ->
   faults w = false :: true :: fs ->
   EventDetailPage.isRegistered ps = true ->
   exists ps' w',
     let r := Supabase.DeleteRegistration eventId (Auth.id u) in
     EventDetailPage.handleRegister QRCode_image (Some u) eventId ps w
       = (Normal tt, ps', w') /\
     EventDetailPage.isRegistered ps' = true /\
     EventDetailPage.showPaymentQR ps' = EventDetailPage.showPaymentQR ps /\
     EventDetailPage.event ps' = EventDetailPage.event ps /\
     EventDetailPage.registering ps' = false /\
     registrations w' = registrations w /\ faults w' = fs /\
     trace w' = trace w ++
       [Requested (Supabase.SelectProfile (Auth.id u));
        Requested r;
        ConsoleError "Error with registration:" (Supabase.RequestFailed r);
        AddToast {| Toast.type := Toast.error;
                    Toast.title := "Error";
                    Toast.message := "Failed to process registration";
                    Toast.duration := None |}])
  /\
  (faults w = true :: fs ->
   eventId <> "" ->
   exists w',
     let r := Supabase.InsertRegistration eventId (Auth.id u) in
     EventDetailPage.confirmPayment (Some u) eventId ps w = (Normal tt, ps, w') /\
     registrations w' = registrations w /\ faults w' = fs /\
     trace w' = trace w ++
       [Requested r;
        ConsoleError "Error confirming registration:" (Supabase.RequestFailed r);
        AddToast {| Toast.type := Toast.error;
                    Toast.title := "Error";
                    Toast.message := "Failed to confirm registration";
                    Toast.duration := None |}])
  /\
  (faults w = true :: fs ->
   exists w',
     EventCard.handleRegister (Some u) event cs w = (Normal tt, cs, w') /\
     EventDetailPage.handleRegister QRCode_image (Some u) eventId ps w
       = (Normal tt, ps, w') /\
     registrations w' = registrations w /\ faults w' = fs /\
     trace w' = trace w ++
       [Requested (Supabase.SelectProfile (Auth.id u));
        AddToast profile_incomplete] /\
     nothing_logged (trace w') = nothing_logged (trace w)).
Proof.
  destruct w as [pr es rs fl tr]; simpl in *.
  split; [|split; [|split]].
  - intros Hp Hc ->. apply complete_truthy in Hc.
    destruct cs as [[|] ring]; simpl;
      (eexists; split;
       [ unfold EventCard.handleRegister, bind at 1, get_state, bind at 1;
         rewrite checkProfileComplete_run; simpl; rewrite Hp, Hc; simpl;
         run_handler; reflexivity
       | simpl; rewrite <- !app_assoc; repeat split ]).
  - intros Hp Hc -> Hreg. apply complete_truthy in Hc.
    destruct ps as [ev ld reg ring qr url]; simpl in *; subst reg.
    eexists _, _; split;
      [ unfold EventDetailPage.handleRegister, bind at 1, get_state, bind at 1;
        rewrite checkProfileComplete_run; simpl; rewrite Hp, Hc; simpl;
        run_handler; reflexivity
      | simpl; rewrite <- !app_assoc; repeat split ].
  - intros -> Hne. apply String.eqb_neq in Hne.
    eexists; split;
      [ unfold EventDetailPage.confirmPayment; rewrite Hne;
        run_handler; reflexivity
      | simpl; rewrite <- !app_assoc; repeat split ].
  - intros ->.
    exists {| profiles := pr; events := es; registrations := rs; faults := fs;
              trace := (tr ++ [Requested (Supabase.SelectProfile (Auth.id u))])
                       ++ [AddToast profile_incomplete] |}.
    split; [|split].
    + unfold EventCard.handleRegister, bind, get_state.
      rewrite checkProfileComplete_run. reflexivity.
    + unfold EventDetailPage.handleRegister, bind, get_state.
      rewrite checkProfileComplete_run. reflexivity.
    + simpl. rewrite <- !app_assoc. repeat split.
      unfold nothing_logged. rewrite forallb_app. simpl.
      now rewrite andb_true_r.
Qed.

Lemma failed_request_is_reported_and_changes_nothing_witness :
  exists w',
    EventCard.handleRegister (Some sample_user) sample_card EventCard.initial
      (sample_world [false; true])
      = (Normal tt, EventCard.initial, w') /\
    registrations w' = [] /\ faults w' = [].
Proof.
  destruct (failed_request_is_reported_and_changes_nothing
              sample_user sample_profile sample_card sample_image "e1"
              EventCard.initial EventDetailPage.initial
              (sample_world [false; true]) []) as (Hcard & _ & _).
  destruct (Hcard eq_refl sample_profile_complete eq_refl)
    as (w' & Hrun & Hrows & Hfaults & _).
  exists w'. split; [exact Hrun|]. split; [exact Hrows|exact Hfaults].
Defined.

(** C9 as stated fails: a failing request of a registration call is not
    always logged nor reported as an error. In the sample world the profile
    query of [handleRegister] fails: the card and the page end after that
    query and the "Profile Incomplete" toast, a warning; nothing is written
    to the console and no error toast is shown. *)
Lemma failed_profile_request_is_not_logged :
  fst (fst (EventCard.handleRegister (Some sample_user) sample_card
              EventCard.initial (sample_world [true]))) = Normal tt /\
  trace (snd (EventCard.handleRegister (Some sample_user) sample_card
                EventCard.initial (sample_world [true])))
    = [Requested (Supabase.SelectProfile "u1"); AddToast profile_incomplete] /\
  fst (fst (EventDetailPage.handleRegister sample_image (Some sample_user) "e1"
              EventDetailPage.initial (sample_world [true]))) = Normal tt /\
  trace (snd (EventDetailPage.handleRegister sample_image (Some sample_user) "e1"
                EventDetailPage.initial (sample_world [true])))
    = [Requested (Supabase.SelectProfile "u1"); AddToast profile_incomplete] /\
  nothing_logged
    [Requested (Supabase.SelectProfile "u1"); AddToast profile_incomplete]
    = true /\
  Toast.type profile_incomplete = Toast.warning.
Proof. repeat split; vm_compute; reflexivity. Qed.


Lemma row_count_inserted eid uid (rs : list Supabase.Registration) :
  length (List.filter (matches eid uid) (rs ++ [registration_row eid uid]))
  = S (length (List.filter (matches eid uid) rs)).
Proof.
  rewrite List.filter_app, length_app. simpl. unfold matches at 2. simpl.
  rewrite !String.eqb_refl. simpl. lia.
Qed.





Lemma card_register_run u p event ring pr es rs tr :
  pr !! Auth.id u = Some p -> complete p ->
  EventCard.handleRegister (Some u) event
    {| EventCard.isRegistered := false; EventCard.registering := ring |}
    {| profiles := pr; events := es; registrations := rs; faults := [];
       trace := tr |}
  = (Normal tt,
     {| EventCard.isRegistered := true; EventCard.registering := false |},
     {| profiles := pr; events := es;
        registrations :=
          rs ++ [registration_row (EventCard.id event) (Auth.id u)];
        faults := [];
        trace := tr ++
          [Requested (Supabase.SelectProfile (Auth.id u));
           Requested (Supabase.InsertRegistration (EventCard.id event) (Auth.id u));
           AddToast {| Toast.type := Toast.success;
                       Toast.title := "Registration Successful!";
                       Toast.message :=
                         String.append "You have been registered for "
                                       (EventCard.title event);
                       Toast.duration := Some 3000 |}] |}).
Proof.
  intros Hp Hc. apply complete_truthy in Hc.
  unfold EventCard.handleRegister, bind at 1, get_state, bind at 1.
  rewrite checkProfileComplete_run. simpl. rewrite Hp, Hc. simpl.
  run_handler. rewrite <- ?app_assoc. reflexivity.
Qed.











End RegistrationProperties.

(* ===================================================================== *)
(** * Further properties of the cart hook *)
(* ===================================================================== *)

Section FurtherCartProperties.
Import useCart.

Lemma map_id_bump (f : CartItem -> CartItem) (its : list CartItem) :
  (forall item, id (f item) = id item) -> map id (map f its) = map id its.
Proof.
  intros Hf. rewrite map_map. apply map_ext. exact Hf.
Qed.

Lemma filter_absent target (its : list CartItem) :
  existsb (fun item => String.eqb (id item) target) its = false ->
  List.filter (fun item => negb (String.eqb (id item) target)) its = its.
Proof.
  induction its as [|x its IH]; simpl; [reflexivity|].
  intros H. apply orb_false_elim in H as [Hx Hrest].
  rewrite Hx. simpl. f_equal. now apply IH.
Qed.

Lemma existsb_filter_other target other (its : list CartItem) :
  other <> target ->
  existsb (fun item => String.eqb (id item) other)
          (List.filter (fun item => negb (String.eqb (id item) target)) its)
  = existsb (fun item => String.eqb (id item) other) its.
Proof.
  intros Hne. induction its as [|x its IH]; simpl; [reflexivity|].
  destruct (String.eqb (id x) target) eqn:E; simpl.
  - apply String.eqb_eq in E.
    assert (Hx : String.eqb (id x) other = false)
      by (apply String.eqb_neq; congruence).
    now rewrite Hx.
  - now rewrite IH.
Qed.

Lemma act_removeFromCart target its :
  act (RemoveFromCart target) its
  = List.filter (fun item => negb (String.eqb (id item) target)) its.
Proof. reflexivity. Qed.

(** X1. [removeFromCart], [updateQuantity] and [clearCart] compute the new
    array from the [items] of the render they were created in: called after
    other actions of the same batch, they discard them, and the next render
    shows what the call alone would have given. *)
Theorem value_setters_discard_pending (h : Hook) (o : Op) :
  is_addToCart o = false ->
  pendingItems (call o h) = act o (items h).
Proof.
  destruct o as [e p|target|target n|]; simpl; intros Hadd;
    try discriminate; unfold act, rerender; simpl.
  - unfold removeFromCart. now rewrite !pendingItems_setItems.
  - unfold updateQuantity, removeFromCart.
    destruct (n <=? 0); now rewrite !pendingItems_setItems.
  - unfold clearCart. now rewrite !pendingItems_setItems.
Qed.

Lemma value_setters_discard_pending_witness :
  items (rerender (removeFromCart "B"
                     (addToCart (sample_event "C") None (rendered sample_cart))))
  = [sample_item "A" 100 1].
Proof.
  unfold rerender. simpl items.
  change (removeFromCart "B" ?h) with (call (RemoveFromCart "B") h).
  rewrite (value_setters_discard_pending _ (RemoveFromCart "B") eq_refl).
  reflexivity.
Defined.

(** X2. After [removeFromCart(id)] no entry has that id, the entries with
    another id are the ones there were, and a cart without the id is
    returned as it is. *)
Theorem removeFromCart_removes_exactly_that_id
    (its : list CartItem) (target : string) :
  isInCart target (rendered (act (RemoveFromCart target) its)) = false /\
  (forall item, In item (act (RemoveFromCart target) its) <->
                In item its /\ id item <> target) /\
  (forall other, other <> target ->
     isInCart other (rendered (act (RemoveFromCart target) its))
     = isInCart other (rendered its)) /\
  (isInCart target (rendered its) = false ->
   act (RemoveFromCart target) its = its).
Proof.
  rewrite act_removeFromCart. unfold isInCart. simpl.
  split; [apply filter_not_in_cart|]. split; [|split].
  - intros item. rewrite filter_In, negb_true_iff, String.eqb_neq. tauto.
  - intros other Hne. now apply existsb_filter_other.
  - apply filter_absent.
Qed.

Lemma removeFromCart_removes_exactly_that_id_witness :
  act (RemoveFromCart "C") sample_cart = sample_cart /\
  isInCart "A" (rendered (act (RemoveFromCart "B") sample_cart)) = true.
Proof.
  destruct (removeFromCart_removes_exactly_that_id sample_cart "C")
    as (_ & _ & _ & Hsame).
  destruct (removeFromCart_removes_exactly_that_id sample_cart "B")
    as (_ & _ & Hother & _).
  split.
  - apply Hsame. reflexivity.
  - rewrite (Hother "A"); [reflexivity|discriminate].
Defined.

(** X3. Adding an event that is not in the cart and removing it again gives
    the cart back. *)
Theorem add_then_remove_restores
    (its : list CartItem) (e : Event) (p : option Z) :
  isInCart (event_id e) (rendered its) = false ->
  act (RemoveFromCart (event_id e)) (act (AddToCart e p) its) = its.
Proof.
  unfold isInCart; simpl. intros Hout.
  rewrite act_removeFromCart, act_addToCart,
    (addToCart_updater_absent e _ its Hout), List.filter_app.
  simpl. rewrite String.eqb_refl. simpl.
  rewrite (filter_absent _ _ Hout). apply app_nil_r.
Qed.

Lemma add_then_remove_restores_witness :
  act (RemoveFromCart "C") (act (AddToCart (sample_event "C") (Some 70)) sample_cart)
  = sample_cart.
Proof.
  apply (add_then_remove_restores sample_cart (sample_event "C") (Some 70)).
  reflexivity.
Defined.

Lemma unique_filter (f : CartItem -> bool) (its : list CartItem) :
  unique_ids its -> unique_ids (List.filter f its).
Proof.
  unfold unique_ids. induction its as [|x its IH]; simpl; intros H; [exact H|].
  apply NoDup_cons in H as [Hx Hrest].
  destruct (f x); simpl; [|now apply IH].
  apply NoDup_cons. split; [|now apply IH].
  intros Hin. apply Hx. apply list_elem_of_In in Hin. apply list_elem_of_In.
  apply in_map_iff in Hin as (y & Hy & Hyin). apply in_map_iff.
  exists y. split; [exact Hy|]. apply filter_In in Hyin. tauto.
Qed.

Lemma unique_map_same_ids (f : CartItem -> CartItem) (its : list CartItem) :
  (forall item, id (f item) = id item) ->
  unique_ids its -> unique_ids (map f its).
Proof. intros Hf H. unfold unique_ids. now rewrite map_id_bump. Qed.

Lemma keeps_unique_value (v : list CartItem) :
  unique_ids v -> keeps_unique (Value v).
Proof. intros Hv state _. exact Hv. Qed.

Lemma keeps_unique_addToCart e p : keeps_unique (Updater (addToCart_updater e p)).
Proof.
  intros state Hs. simpl. unfold addToCart_updater.
  destruct (find _ state) eqn:Hfind.
  - apply unique_map_same_ids; [|exact Hs].
    intros item. now destruct (String.eqb (id item) (event_id e)).
  - apply find_none_existsb in Hfind.
    unfold unique_ids in *. rewrite map_app. simpl.
    apply NoDup_app. split; [exact Hs|]. split.
    + intros x Hx Hx'. apply list_elem_of_In in Hx.
      apply list_elem_of_In in Hx'. destruct Hx' as [<-|[]].
      apply in_map_iff in Hx as (y & Hy & Hyin).
      assert (Ht : existsb (fun item => String.eqb (id item) (event_id e)) state
                   = true).
      { apply existsb_exists. exists y. split; [exact Hyin|].
        now apply String.eqb_eq. }
      congruence.
    + apply NoDup_singleton.
Qed.

Lemma pending_unique (q : list SetStateAction) (state : list CartItem) :
  Forall keeps_unique q -> unique_ids state ->
  unique_ids (fold_left basicStateReducer q state).
Proof.
  revert state. induction q as [|a q IH]; intros state Hq Hs; simpl; [exact Hs|].
  inversion Hq; subst. apply IH; [assumption|]. now apply H1.
Qed.

Lemma call_keeps_unique (o : Op) (h : Hook) :
  unique_ids (items h) -> Forall keeps_unique (queue h) ->
  unique_ids (items (call o h)) /\ Forall keeps_unique (queue (call o h)).
Proof.
  intros Hi Hq.
  assert (Hadd : forall a, keeps_unique a ->
            unique_ids (items (setItems a h)) /\
            Forall keeps_unique (queue (setItems a h))).
  { intros a Ha. split; [exact Hi|]. simpl. apply Forall_app. split; auto. }
  destruct o as [e p|target|target n|]; simpl.
  - apply Hadd, keeps_unique_addToCart.
  - apply Hadd, keeps_unique_value, unique_filter, Hi.
  - unfold updateQuantity. destruct (n <=? 0).
    + apply Hadd, keeps_unique_value, unique_filter, Hi.
    + apply Hadd, keeps_unique_value, unique_map_same_ids; [|exact Hi].
      intros item. now destruct (String.eqb (id item) target).
  - apply Hadd, keeps_unique_value. constructor.
Qed.

Lemma run_keeps_unique (ss : list Step) (h : Hook) :
  unique_ids (items h) -> Forall keeps_unique (queue h) ->
  unique_ids (items (run ss h)) /\ Forall keeps_unique (queue (run ss h)).
Proof.
  revert h. induction ss as [|s ss IH]; intros h Hi Hq; simpl; [now split|].
  destruct s as [o|]; simpl.
  - destruct (call_keeps_unique o h Hi Hq) as [Hi' Hq']. now apply IH.
  - apply IH; simpl; [|constructor]. now apply pending_unique.
Qed.

(** X4. A cart whose entries have pairwise different ids keeps that
    property through every session of calls and re-renders: [addToCart]
    never creates a second entry for an id. *)
Theorem cart_ids_stay_unique (its : list CartItem) (ss : list Step) :
  unique_ids its -> unique_ids (items (run ss (rendered its))).
Proof.
  intros H. apply (run_keeps_unique ss (rendered its) H). constructor.
Qed.

Lemma sample_cart_unique : unique_ids sample_cart.
Proof.
  unfold unique_ids. simpl. apply NoDup_cons. split.
  - intros H. apply list_elem_of_In in H. destruct H as [H|[]]. discriminate.
  - apply NoDup_singleton.
Qed.

Lemma cart_ids_stay_unique_witness :
  unique_ids
    (items (run [Call (AddToCart (sample_event "A") None); Render;
                 Call (AddToCart (sample_event "C") None);
                 Call (AddToCart (sample_event "C") None); Render]
                (rendered sample_cart))).
Proof.
  apply (cart_ids_stay_unique sample_cart _ sample_cart_unique).
Defined.

Lemma bump_absent target (its : list CartItem) :
  existsb (fun item => String.eqb (id item) target) its = false ->
  map (fun item =>
         if String.eqb (id item) target
         then {| id := id item; title := title item; price := price item;
                 quantity := quantity item + 1; image_url := image_url item;
                 venue := venue item; schedule := schedule item |}
         else item) its = its.
Proof.
  induction its as [|x its IH]; simpl; [reflexivity|].
  intros H. apply orb_false_elim in H as [Hx Hrest].
  rewrite Hx. f_equal. now apply IH.
Qed.

Lemma absent_of_not_in target (its : list CartItem) :
  ~ In target (map id its) ->
  existsb (fun item => String.eqb (id item) target) its = false.
Proof.
  intros Hn. destruct (existsb _ its) eqn:E; [|reflexivity].
  apply existsb_exists in E as (y & Hy & Heq). apply String.eqb_eq in Heq.
  exfalso. apply Hn. apply in_map_iff. now exists y.
Qed.

Lemma bump_sums target (its : list CartItem) (item : CartItem) :
  unique_ids its -> In item its -> id item = target ->
  let bumped :=
    map (fun item =>
           if String.eqb (id item) target
           then {| id := id item; title := title item; price := price item;
                   quantity := quantity item + 1; image_url := image_url item;
                   venue := venue item; schedule := schedule item |}
           else item) its in
  sum_of_quantities bumped = sum_of_quantities its + 1 /\
  sum_of_price_times_quantity bumped
    = sum_of_price_times_quantity its + price item.
Proof.
  unfold unique_ids. induction its as [|x its IH]; simpl; intros Hu Hin Hid;
    [contradiction|].
  apply NoDup_cons in Hu as [Hx Hrest].
  assert (Hx' : ~ In (id x) (map id its))
    by (intros H; apply Hx; now apply list_elem_of_In).
  destruct Hin as [->|Hin].
  - rewrite Hid, String.eqb_refl. simpl.
    rewrite bump_absent by (apply absent_of_not_in; congruence). lia.
  - assert (Hne : String.eqb (id x) target = false).
    { apply String.eqb_neq. intros Heq. apply Hx'. rewrite Heq, <- Hid.
      now apply in_map. }
    rewrite Hne. simpl. destruct (IH Hrest Hin Hid) as [Hq Hp]. lia.
Qed.

Lemma sums_app (its its' : list CartItem) :
  sum_of_quantities (its ++ its')
    = sum_of_quantities its + sum_of_quantities its' /\
  sum_of_price_times_quantity (its ++ its')
    = sum_of_price_times_quantity its + sum_of_price_times_quantity its'.
Proof.
  induction its as [|x its [IHq IHp]]; simpl; [split; lia|].
  rewrite IHq, IHp. split; lia.
Qed.

Lemma bump_sums_all target (its : list CartItem) :
  let bumped :=
    map (fun item =>
           if String.eqb (id item) target
           then {| id := id item; title := title item; price := price item;
                   quantity := quantity item + 1; image_url := image_url item;
                   venue := venue item; schedule := schedule item |}
           else item) its in
  sum_of_quantities bumped
    = sum_of_quantities its + Z.of_nat (length (entries_with target its)) /\
  sum_of_price_times_quantity bumped
    = sum_of_price_times_quantity its + sum_of_prices (entries_with target its).
Proof.
  unfold entries_with. induction its as [|x its [IHq IHp]]; simpl; [split; lia|].
  destruct (String.eqb (id x) target); simpl; rewrite IHq, IHp; split; lia.
Qed.

(** X5. What [addToCart] does to the totals. For an id that is not in the
    cart, the total number of items grows by one and the total price by the
    price passed (100 when omitted). For an id that is in the cart, every
    entry carrying it is incremented: the total number of items grows by
    the number of such entries and the total price by the sum of their
    stored prices, whatever price is passed. In a cart with unique ids that
    is one more item and the stored price of the one entry. *)
Theorem addToCart_raises_totals
    (its : list CartItem) (e : Event) (p : option Z) :
  (isInCart (event_id e) (rendered its) = false ->
   getTotalItems (rendered (act (AddToCart e p) its))
     = getTotalItems (rendered its) + 1 /\
   getTotalPrice (rendered (act (AddToCart e p) its))
     = getTotalPrice (rendered its)
       + match p with Some p => p | None => 100 end)
  /\
  (isInCart (event_id e) (rendered its) = true ->
   getTotalItems (rendered (act (AddToCart e p) its))
     = getTotalItems (rendered its)
       + Z.of_nat (length (entries_with (event_id e) its)) /\
   getTotalPrice (rendered (act (AddToCart e p) its))
     = getTotalPrice (rendered its)
       + sum_of_prices (entries_with (event_id e) its))
  /\
  (unique_ids its ->
   forall item, In item its -> id item = event_id e ->
   getTotalItems (rendered (act (AddToCart e p) its))
     = getTotalItems (rendered its) + 1 /\
   getTotalPrice (rendered (act (AddToCart e p) its))
     = getTotalPrice (rendered its) + price item).
Proof.
  unfold getTotalItems, getTotalPrice, isInCart. simpl.
  rewrite !fold_left_quantities, !fold_left_amounts, act_addToCart.
  split; [|split].
  - intros Hout. rewrite (addToCart_updater_absent e _ its Hout).
    destruct (sums_app its
                [{| id := event_id e; title := event_title e;
                    price := match p with Some p => p | None => 100 end;
                    quantity := 1; image_url := event_image_url e;
                    venue := event_venue e; schedule := event_schedule e |}])
      as [Hq Hp].
    rewrite Hq, Hp. simpl. lia.
  - intros Hin. unfold addToCart_updater.
    destruct (find _ its) eqn:Hfind.
    + apply bump_sums_all.
    + apply find_none_existsb in Hfind. congruence.
  - intros Hu item Hin Hid. unfold addToCart_updater.
    destruct (find _ its) eqn:Hfind.
    + destruct (bump_sums (event_id e) its item Hu Hin Hid) as [Hq Hp]. lia.
    + apply find_none_existsb in Hfind.
      assert (Ht : existsb (fun it => String.eqb (id it) (event_id e)) its = true).
      { apply existsb_exists. exists item. split; [exact Hin|].
        now apply String.eqb_eq. }
      congruence.
Qed.

Lemma addToCart_raises_totals_witness :
  getTotalItems (rendered (act (AddToCart (sample_event "C") None) sample_cart)) = 4 /\
  getTotalPrice (rendered (act (AddToCart (sample_event "C") None) sample_cart)) = 300 /\
  getTotalPrice (rendered (act (AddToCart (sample_event "B") (Some 999)) sample_cart))
    = 250 /\
  getTotalItems
    (rendered (act (AddToCart (sample_event "B") None)
                   (sample_cart ++ [sample_item "B" 70 4]))) = 7 + 2.
Proof.
  destruct (addToCart_raises_totals sample_cart (sample_event "C") None)
    as [Hnew _].
  destruct (Hnew eq_refl) as [Hq Hp].
  destruct (addToCart_raises_totals sample_cart (sample_event "B") (Some 999))
    as (_ & _ & Hold).
  destruct (Hold sample_cart_unique (sample_item "B" 50 2)
                 (or_intror (or_introl eq_refl)) eq_refl) as [_ Hp'].
  destruct (addToCart_raises_totals (sample_cart ++ [sample_item "B" 70 4])
              (sample_event "B") None) as (_ & Htwice & _).
  destruct (Htwice eq_refl) as [Hq2 _].
  split; [|split; [|split]].
  - rewrite Hq. reflexivity.
  - rewrite Hp. reflexivity.
  - rewrite Hp'. reflexivity.
  - rewrite Hq2. reflexivity.
Defined.

(** X6. Of two successive [updateQuantity] calls on one id, the first with a
    quantity of at least one, only the second counts. *)
Theorem updateQuantity_last_wins
    (its : list CartItem) (target : string) (n m : Z) :
  1 <= n ->
  act (UpdateQuantity target m) (act (UpdateQuantity target n) its)
  = act (UpdateQuantity target m) its.
Proof.
  intros Hn. unfold act, call, updateQuantity, rerender.
  destruct (n <=? 0) eqn:En; [apply Z.leb_le in En; lia|].
  destruct (m <=? 0) eqn:Em; unfold removeFromCart;
    rewrite !pendingItems_setItems; simpl.
  - induction its as [|x its IH]; simpl; [reflexivity|].
    destruct (String.eqb (id x) target) eqn:E; simpl; rewrite E; simpl;
      [exact IH|now rewrite IH].
  - rewrite map_map. apply map_ext. intros x.
    destruct (String.eqb (id x) target) eqn:E; simpl; now rewrite E.
Qed.

Lemma updateQuantity_last_wins_witness :
  act (UpdateQuantity "B" 0) (act (UpdateQuantity "B" 7) sample_cart)
  = act (UpdateQuantity "B" 0) sample_cart.
Proof.
  apply (updateQuantity_last_wins sample_cart "B" 7 0). lia.
Defined.

End FurtherCartProperties.

(* ===================================================================== *)
(** * Further properties of the persistence of the cart *)
(* ===================================================================== *)

Section FurtherPersistenceProperties.
Import useCart.
Variable JSON_stringify : list CartItem -> string.
Variable JSON_parse : string -> option (list CartItem).

Lemma mount_of_snapshot (b : Browser) (its : list CartItem) :
  its <> [] -> JSON_stringify its <> "" ->
  JSON_parse (JSON_stringify its) = Some its ->
  localStorage b !! "cart" = Some (JSON_stringify its) ->
  fst (mount JSON_stringify JSON_parse b) = rendered its.
Proof.
  intros Hne Hstr Hparse Hget. unfold mount, initialItems, getItem.
  rewrite Hget. apply String.eqb_neq in Hstr. rewrite Hstr, Hparse.
  reflexivity.
Qed.

(** X7. When the platform's serialiser round-trips the entries, the cart
    shown after a mutation is the cart a reload starts with: the re-render
    stores it and the next mount reads it back. *)
Theorem reload_restores_cart (h : Hook) (o : Op) (b : Browser) :
  let its := items (fst (render JSON_stringify (call o h, b))) in
  its <> [] -> JSON_stringify its <> "" ->
  JSON_parse (JSON_stringify its) = Some its ->
  fst (mount JSON_stringify JSON_parse
         (snd (render JSON_stringify (call o h, b))))
  = rendered its.
Proof.
  destruct (call_enqueues o h) as [a ->]. rewrite render_setItems. simpl.
  intros Hne Hstr Hparse. apply mount_of_snapshot; try assumption.
  unfold saveEffect. destruct (pendingItems (setItems a h)); [congruence|].
  simpl. apply lookup_insert_eq.
Qed.

(** X8. Emptying the cart is not stored: after a mount that found entries,
    [clearCart] shows an empty cart, and a reload shows the entries again. *)
Theorem cleared_cart_returns_on_reload (b : Browser) :
  let h0 := fst (mount JSON_stringify JSON_parse b) in
  let b0 := snd (mount JSON_stringify JSON_parse b) in
  items h0 <> [] -> JSON_stringify (items h0) <> "" ->
  JSON_parse (JSON_stringify (items h0)) = Some (items h0) ->
  items (fst (render JSON_stringify (clearCart h0, b0))) = [] /\
  fst (mount JSON_stringify JSON_parse
         (snd (render JSON_stringify (clearCart h0, b0))))
  = h0.
Proof.
  intros h0 b0 Hne Hstr Hparse. unfold clearCart.
  rewrite render_setItems, pendingItems_setItems. simpl.
  split; [reflexivity|].
  assert (Hh0 : h0 = rendered (items h0)).
  { subst h0. unfold mount. destruct (initialItems JSON_parse b). reflexivity. }
  transitivity (rendered (items h0)); [|symmetry; exact Hh0].
  apply mount_of_snapshot; try assumption.
  subst h0 b0. unfold mount in *. destruct (initialItems JSON_parse b) as [its b1].
  simpl in *. unfold saveEffect. destruct its; [congruence|].
  simpl. apply lookup_insert_eq.
Qed.

Lemma saveEffect_frame (its : list CartItem) (b : Browser) :
  (forall key, key <> "cart" ->
     localStorage (saveEffect JSON_stringify its b) !! key = localStorage b !! key) /\
  exists cs, calls (saveEffect JSON_stringify its b) = calls b ++ cs /\
             Forall (fun c => key_of c = "cart") cs.
Proof.
  unfold saveEffect. destruct (0 <? length its)%nat; simpl.
  - split.
    + intros key Hk. now apply lookup_insert_ne.
    + eexists. split; [reflexivity|]. now constructor.
  - split; [reflexivity|]. exists []. split; [now rewrite app_nil_r|constructor].
Qed.

Lemma step_in_frame (hb : Hook * Browser) (s : Step) :
  (forall key, key <> "cart" ->
     localStorage (snd (step_in JSON_stringify hb s)) !! key
     = localStorage (snd hb) !! key) /\
  exists cs, calls (snd (step_in JSON_stringify hb s)) = calls (snd hb) ++ cs /\
             Forall (fun c => key_of c = "cart") cs.
Proof.
  destruct hb as [h b]. destruct s as [o|]; simpl.
  - split; [reflexivity|]. exists []. split; [now rewrite app_nil_r|constructor].
  - destruct (queue h); simpl.
    + split; [reflexivity|]. exists []. split; [now rewrite app_nil_r|constructor].
    + apply saveEffect_frame.
Qed.

Lemma run_in_frame (ss : list Step) (hb : Hook * Browser) :
  (forall key, key <> "cart" ->
     localStorage (snd (run_in JSON_stringify ss hb)) !! key
     = localStorage (snd hb) !! key) /\
  exists cs, calls (snd (run_in JSON_stringify ss hb)) = calls (snd hb) ++ cs /\
             Forall (fun c => key_of c = "cart") cs.
Proof.
  revert hb. induction ss as [|s ss IH]; intros hb.
  - split; [reflexivity|]. exists []. split; [now rewrite app_nil_r|constructor].
  - unfold run_in in *. simpl.
    destruct (IH (step_in JSON_stringify hb s)) as (Hk & cs2 & Hc2 & Hf2).
    destruct (step_in_frame hb s) as (Hk1 & cs1 & Hc1 & Hf1).
    split.
    + intros key Hne. rewrite Hk by exact Hne. now apply Hk1.
    + exists (cs1 ++ cs2). split.
      * rewrite Hc2, Hc1. now rewrite app_assoc.
      * apply Forall_app. now split.
Qed.

Lemma mount_frame (b : Browser) :
  (forall key, key <> "cart" ->
     localStorage (snd (mount JSON_stringify JSON_parse b)) !! key
     = localStorage b !! key) /\
  exists cs, calls (snd (mount JSON_stringify JSON_parse b)) = calls b ++ cs /\
             Forall (fun c => key_of c = "cart") cs.
Proof.
  unfold mount, initialItems, getItem.
  set (b1 := {| localStorage := localStorage b;
                calls := calls b ++ [GetItem "cart"] |}).
  assert (H : forall its,
             (forall key, key <> "cart" ->
                localStorage (saveEffect JSON_stringify its b1) !! key
                = localStorage b !! key) /\
             exists cs, calls (saveEffect JSON_stringify its b1) = calls b ++ cs /\
                        Forall (fun c => key_of c = "cart") cs).
  { intros its. destruct (saveEffect_frame its b1) as (Hk & cs & Hc & Hf).
    split; [exact Hk|]. exists (GetItem "cart" :: cs). split.
    - rewrite Hc. simpl. now rewrite <- app_assoc.
    - now constructor. }
  destruct (localStorage b !! "cart") as [s|]; simpl; [|apply (H [])].
  destruct (String.eqb s ""); simpl; [apply (H [])|].
  destruct (JSON_parse s) as [its|]; simpl; [apply (H its)|apply (H [])].
Qed.

(** X9. The hook only ever touches the key [cart]: whatever the session,
    every other key of [localStorage] keeps its value and every call made
    to the storage names [cart]. *)
Theorem hook_touches_only_cart_key (b : Browser) (ss : list Step) :
  let b' := snd (run_in JSON_stringify ss (mount JSON_stringify JSON_parse b)) in
  (forall key, key <> "cart" -> localStorage b' !! key = localStorage b !! key) /\
  exists cs, calls b' = calls b ++ cs /\
             Forall (fun c => key_of c = "cart") cs.
Proof.
  simpl.
  destruct (run_in_frame ss (mount JSON_stringify JSON_parse b))
    as (Hk & cs2 & Hc2 & Hf2).
  destruct (mount_frame b) as (Hk1 & cs1 & Hc1 & Hf1).
  split.
  - intros key Hne. rewrite Hk by exact Hne. now apply Hk1.
  - exists (cs1 ++ cs2). split.
    + rewrite Hc2, Hc1. now rewrite app_assoc.
    + apply Forall_app. now split.
Qed.

(** X10. A mount that finds no snapshot, an empty one or one that does not
    parse starts with the empty cart and writes nothing: the stored value,
    readable or not, stays as it is. *)
Theorem unreadable_snapshot_is_left_alone (b : Browser) :
  match localStorage b !! "cart" with
  | Some s => s = "" \/ JSON_parse s = None
  | None => True
  end ->
  mount JSON_stringify JSON_parse b
  = (rendered [],
     {| localStorage := localStorage b; calls := calls b ++ [GetItem "cart"] |}).
Proof.
  unfold mount, initialItems, getItem.
  destruct (localStorage b !! "cart") as [s|]; simpl; [|reflexivity].
  intros [->|Hp]; [reflexivity|].
  destruct (String.eqb s ""); [reflexivity|]. now rewrite Hp.
Qed.

End FurtherPersistenceProperties.

Section FurtherPersistenceWitnesses.
Import useCart.

Lemma reload_restores_cart_witness :
  fst (mount sample_stringify sample_parse_cart
         (snd (render sample_stringify
                 (call (UpdateQuantity "C" 3) (rendered sample_cart),
                  {| localStorage := ∅; calls := [] |}))))
  = rendered sample_cart.
Proof.
  apply (reload_restores_cart sample_stringify sample_parse_cart
           (rendered sample_cart) (UpdateQuantity "C" 3)
           {| localStorage := ∅; calls := [] |}).
  - discriminate.
  - discriminate.
  - reflexivity.
Defined.

Lemma cleared_cart_returns_on_reload_witness :
  let b := {| localStorage := {["cart" := "A,B"]}; calls := [] |} in
  let h0 := fst (mount sample_stringify sample_parse_cart b) in
  let b0 := snd (mount sample_stringify sample_parse_cart b) in
  items (fst (render sample_stringify (clearCart h0, b0))) = [] /\
  fst (mount sample_stringify sample_parse_cart
         (snd (render sample_stringify (clearCart h0, b0))))
  = h0.
Proof.
  apply (cleared_cart_returns_on_reload sample_stringify sample_parse_cart
           {| localStorage := {["cart" := "A,B"]}; calls := [] |}).
  - discriminate.
  - discriminate.
  - reflexivity.
Defined.

Lemma hook_touches_only_cart_key_witness :
  localStorage
    (snd (run_in sample_stringify
            [Call (AddToCart (sample_event "C") None); Render]
            (mount sample_stringify sample_parse
               {| localStorage := {["darkMode" := "true"]}; calls := [] |})))
    !! "darkMode" = Some "true".
Proof.
  destruct (hook_touches_only_cart_key sample_stringify sample_parse
              {| localStorage := {["darkMode" := "true"]}; calls := [] |}
              [Call (AddToCart (sample_event "C") None); Render])
    as [Hk _].
  rewrite Hk; [reflexivity|discriminate].
Defined.

Lemma unreadable_snapshot_is_left_alone_witness :
  mount sample_stringify sample_parse sample_browser
  = (rendered [],
     {| localStorage := {["cart" := "A,B"]}; calls := [GetItem "cart"] |}).
Proof.
  apply (unreadable_snapshot_is_left_alone sample_stringify sample_parse
           sample_browser).
  right. reflexivity.
Defined.

End FurtherPersistenceWitnesses.

(* ===================================================================== *)
(** * Properties of the cart panel and of the cart button *)
(* ===================================================================== *)

Section CartPanelProperties.
Import useCart.

(** X11. Checkout opens the payment dialog only for a cart with entries.
    A successful payment closes the dialog, calls [onClose] once and shows
    an empty cart with amount 0 at the next render; that render writes
    nothing, so the paid entries stay in [localStorage]. *)
Theorem checkout_needs_items_and_payment_empties
    (s : Cart.State) (JSON_stringify : list CartItem -> string) (b : Browser) :
  (items (Cart.cart s) = [] -> Cart.handlePayment s = s) /\
  (items (Cart.cart s) <> [] ->
   Cart.handlePayment s = {| Cart.cart := Cart.cart s; Cart.showPayment := true |})
  /\
  (let s' := fst (Cart.handlePaymentSuccess s) in
   snd (Cart.handlePaymentSuccess s) = [Cart.onClose] /\
   Cart.showPayment s' = false /\
   items (rerender (Cart.cart s')) = [] /\
   getTotalPrice (rerender (Cart.cart s')) = 0 /\
   snd (render JSON_stringify (Cart.cart s', b)) = b).
Proof.
  unfold Cart.handlePayment, Cart.handlePaymentSuccess. split; [|split].
  - intros ->. reflexivity.
  - intros Hne. destruct (items (Cart.cart s)); [congruence|reflexivity].
  - cbn [fst snd Cart.cart Cart.showPayment]. unfold clearCart, rerender.
    rewrite render_setItems, pendingItems_setItems. simpl. repeat split.
Qed.

Lemma checkout_needs_items_and_payment_empties_witness :
  Cart.handlePayment {| Cart.cart := rendered []; Cart.showPayment := false |}
    = {| Cart.cart := rendered []; Cart.showPayment := false |} /\
  Cart.showPayment
    (Cart.handlePayment {| Cart.cart := rendered sample_cart;
                           Cart.showPayment := false |}) = true.
Proof.
  destruct (checkout_needs_items_and_payment_empties
              {| Cart.cart := rendered []; Cart.showPayment := false |}
              sample_stringify sample_browser) as (Hempty & _ & _).
  destruct (checkout_needs_items_and_payment_empties
              {| Cart.cart := rendered sample_cart; Cart.showPayment := false |}
              sample_stringify sample_browser) as (_ & Hfull & _).
  split.
  - apply Hempty. reflexivity.
  - rewrite Hfull; [reflexivity|discriminate].
Defined.

Lemma Forall2_map_after {A} (R : A -> A -> Prop) (f : A -> A) (l k : list A) :
  Forall2 R l k -> (forall x y, R x y -> R x (f y)) -> Forall2 R l (map f k).
Proof.
  intros H Hf. induction H; simpl; constructor; auto.
Qed.

Lemma Forall2_same {A} (R : A -> A -> Prop) (l : list A) :
  (forall x, R x x) -> Forall2 R l l.
Proof. intros H. induction l; constructor; auto. Qed.

(** One click on the quantity control of a row, and the re-render: rows are
    neither removed nor added, and the click is either ignored or leaves the
    control and the entry at the same quantity of at least one. *)
Lemma click_effect (item : CartItem) (its : list CartItem) (b : Cart.Button)
    (s : Cart.ItemState) (h : Hook) :
  queue h = [] ->
  (exists item', In item' (items h) /\ same_entry item item') ->
  Forall2 (fun old new => id new = id old /\ (id old <> id item -> new = old))
          its (items h) ->
  let s' := fst (Cart.click item b s h) in
  let h' := rerender (snd (Cart.click item b s h)) in
  queue h' = [] /\
  (exists item', In item' (items h') /\ same_entry item item') /\
  Forall2 (fun old new => id new = id old /\ (id old <> id item -> new = old))
          its (items h') /\
  ((s' = s /\ h' = h) \/
   (1 <= Cart.quantity s' /\
    exists item', In item' (items h') /\ same_entry item item' /\
                  quantity item' = Cart.quantity s')).
Proof.
  intros Hqueue (item' & Hin & Hsame) Hothers.
  assert (Hstay : rerender h = h).
  { destruct h as [i q]. simpl in *. subst q. reflexivity. }
  assert (Hkey : forall n,
    let s' := fst (Cart.handleQuantityChange item n s h) in
    let h' := rerender (snd (Cart.handleQuantityChange item n s h)) in
    queue h' = [] /\
    (exists item', In item' (items h') /\ same_entry item item') /\
    Forall2 (fun old new => id new = id old /\ (id old <> id item -> new = old))
            its (items h') /\
    ((s' = s /\ h' = h) \/
     (1 <= Cart.quantity s' /\
      exists item', In item' (items h') /\ same_entry item item' /\
                    quantity item' = Cart.quantity s'))).
  { intros n. unfold Cart.handleQuantityChange.
    destruct (n <? 1) eqn:En; cbn [fst snd Cart.quantity Cart.isRemoving].
    - rewrite Hstay. split; [exact Hqueue|]. split; [eauto|].
      split; [exact Hothers|]. left. now split.
    - apply Z.ltb_ge in En. unfold updateQuantity.
      destruct (n <=? 0) eqn:En'; [apply Z.leb_le in En'; lia|].
      unfold rerender. rewrite pendingItems_setItems. simpl.
      destruct Hsame as (Hi & Ht & Hp & Him & Hv & Hsc).
      assert (Hnew : exists item'0,
                In item'0
                   (map (fun item0 =>
                           if String.eqb (id item0) (id item)
                           then {| id := id item0; title := title item0;
                                   price := price item0; quantity := n;
                                   image_url := image_url item0;
                                   venue := venue item0;
                                   schedule := schedule item0 |}
                           else item0) (items h)) /\
                same_entry item item'0 /\ quantity item'0 = n).
      { eexists. split; [apply in_map, Hin|].
        rewrite Hi, String.eqb_refl. simpl. repeat split; assumption. }
      split; [reflexivity|]. split; [|split].
      + destruct Hnew as (y & Hy & Hs & _). now exists y.
      + apply Forall2_map_after; [exact Hothers|].
        intros old new [Hid Hne].
        destruct (String.eqb (id new) (id item)) eqn:E; simpl.
        * split; [exact Hid|]. intros Hold. apply String.eqb_eq in E. congruence.
        * split; assumption.
      + right. split; [exact En|exact Hnew]. }
  destruct b; simpl; apply Hkey.
Qed.

(** X12. The quantity control of a row never removes a row: after any
    number of clicks, each followed by a re-render, the cart has the same
    ids in the same order and every entry with another id is untouched.
    Either no click has taken effect, the control still shows
    [item.quantity || 1] and the cart is unchanged, or the control shows a
    quantity of at least one and the entry has that quantity. For a stored
    quantity of at least one the second always holds: a minus click at
    quantity one is ignored. For a stored quantity of zero the control
    starts at one while the entry keeps zero. *)
Theorem quantity_control_never_removes
    (item : CartItem) (its : list CartItem) (bs : list Cart.Button) :
  In item its ->
  let s' := fst (Cart.clicks item bs (Cart.initialItem item, rendered its)) in
  let h' := snd (Cart.clicks item bs (Cart.initialItem item, rendered its)) in
  Forall2 (fun old new => id new = id old /\ (id old <> id item -> new = old))
          its (items h') /\
  ((s' = Cart.initialItem item /\ h' = rendered its) \/
   (1 <= Cart.quantity s' /\
    exists item', In item' (items h') /\ same_entry item item' /\
                  quantity item' = Cart.quantity s')) /\
  (1 <= quantity item ->
   1 <= Cart.quantity s' /\
   exists item', In item' (items h') /\ same_entry item item' /\
                 quantity item' = Cart.quantity s') /\
  (quantity item = 0 ->
   Cart.quantity (Cart.initialItem item) = 1 /\
   Cart.clicks item [Cart.Minus] (Cart.initialItem item, rendered its)
     = (Cart.initialItem item, rendered its)).
Proof.
  intros Hin.
  assert (Hgen : forall bs s h,
    queue h = [] ->
    (exists item', In item' (items h) /\ same_entry item item') ->
    Forall2 (fun old new => id new = id old /\ (id old <> id item -> new = old))
            its (items h) ->
    let s' := fst (Cart.clicks item bs (s, h)) in
    let h' := snd (Cart.clicks item bs (s, h)) in
    Forall2 (fun old new => id new = id old /\ (id old <> id item -> new = old))
            its (items h') /\
    ((s' = s /\ h' = h) \/
     (1 <= Cart.quantity s' /\
      exists item', In item' (items h') /\ same_entry item item' /\
                    quantity item' = Cart.quantity s')) /\
    ((1 <= Cart.quantity s /\
      exists item', In item' (items h) /\ same_entry item item' /\
                    quantity item' = Cart.quantity s) ->
     1 <= Cart.quantity s' /\
     exists item', In item' (items h') /\ same_entry item item' /\
                   quantity item' = Cart.quantity s')).
  { clear bs. induction bs as [|b bs IH]; intros s h H1 H2 H3; simpl.
    - split; [exact H3|]. split; [left; now split|]. intros H. exact H.
    - destruct (click_effect item its b s h H1 H2 H3) as (K1 & K2 & K3 & K4).
      unfold Cart.clicks in *. simpl.
      destruct (Cart.click item b s h) as [s1 h1]. simpl in *.
      destruct (IH s1 (rerender h1) K1 K2 K3) as (L1 & L2 & L3).
      split; [exact L1|]. split.
      + destruct L2 as [[Es Eh]|L2]; [|right; exact L2].
        destruct K4 as [[Es1 Eh1]|K4].
        * left. split; congruence.
        * right. rewrite Es, Eh. exact K4.
      + intros Hagree. apply L3.
        destruct K4 as [[Es1 Eh1]|K4]; [|exact K4].
        rewrite Es1, Eh1. exact Hagree. }
  destruct (Hgen bs (Cart.initialItem item) (rendered its)) as (G1 & G2 & G3).
  - reflexivity.
  - exists item. split; [exact Hin|apply same_entry_refl].
  - apply Forall2_same. intros x. now split.
  - split; [exact G1|]. split; [exact G2|]. split.
    + intros Hq. apply G3. unfold Cart.initialItem. simpl.
      destruct (quantity item =? 0) eqn:E; [apply Z.eqb_eq in E; lia|].
      split; [exact Hq|]. exists item.
      split; [exact Hin|]. split; [apply same_entry_refl|reflexivity].
    + intros Hz. unfold Cart.clicks, Cart.click, Cart.handleQuantityChange,
        Cart.initialItem. simpl. rewrite Hz. simpl. split; reflexivity.
Qed.

Lemma quantity_control_never_removes_witness :
  let item := sample_item "A" 100 1 in
  let s' := fst (Cart.clicks item [Cart.Minus; Cart.Minus; Cart.Plus]
                   (Cart.initialItem item, rendered sample_cart)) in
  let h' := snd (Cart.clicks item [Cart.Minus; Cart.Minus; Cart.Plus]
                   (Cart.initialItem item, rendered sample_cart)) in
  1 <= Cart.quantity s' /\
  exists item', In item' (items h') /\ same_entry item item' /\
                quantity item' = Cart.quantity s'.
Proof.
  destruct (quantity_control_never_removes (sample_item "A" 100 1) sample_cart
              [Cart.Minus; Cart.Minus; Cart.Plus]) as (_ & _ & H & _).
  - left. reflexivity.
  - apply H. simpl. lia.
Defined.

Lemma in_cart_of_In (item : CartItem) (its : list CartItem) :
  In item its ->
  existsb (fun it => String.eqb (id it) (id item)) its = true.
Proof.
  intros Hin. apply existsb_exists. exists item. split; [exact Hin|].
  apply String.eqb_refl.
Qed.

(** X13. The delete button of a row removes the row 300 ms later with the
    [removeFromCart] of the render it was clicked in. When two rows are
    clicked in the same render, the second timer filters the array of that
    render again: its row goes and the first row, already removed, is back.
    Clicked after the first removal has rendered, the second removal leaves
    both rows out. *)
Theorem second_delayed_removal_restores_first
    (its : list CartItem) (a b : CartItem) (sa sb : Cart.ItemState) :
  In a its -> In b its -> id a <> id b ->
  let r := rendered its in
  let ta := snd (Cart.handleRemove a r sa) in
  let tb := snd (Cart.handleRemove b r sb) in
  let h1 := rerender (Cart.fire ta r) in
  let h2 := rerender (Cart.fire tb h1) in
  let tb' := snd (Cart.handleRemove b h1 sb) in
  let h2' := rerender (Cart.fire tb' h1) in
  isInCart (id a) h1 = false /\
  items h2 = act (RemoveFromCart (id b)) its /\
  isInCart (id a) h2 = true /\ isInCart (id b) h2 = false /\
  isInCart (id a) h2' = false /\ isInCart (id b) h2' = false.
Proof.
  intros Ha Hb Hne. simpl.
  unfold Cart.fire, Cart.onRemove, rerender. simpl.
  rewrite !pendingItems_setItems. simpl.
  unfold pendingItems. simpl. unfold isInCart. simpl.
  rewrite act_removeFromCart.
  split; [apply filter_not_in_cart|]. split; [reflexivity|].
  split; [|split; [|split]].
  - rewrite existsb_filter_other by exact Hne. now apply in_cart_of_In.
  - apply filter_not_in_cart.
  - rewrite existsb_filter_other by exact Hne. apply filter_not_in_cart.
  - apply filter_not_in_cart.
Qed.

Lemma second_delayed_removal_restores_first_witness :
  let s := {| Cart.isRemoving := false; Cart.quantity := 1 |} in
  let r := rendered sample_cart in
  let ta := snd (Cart.handleRemove (sample_item "A" 100 1) r s) in
  let tb := snd (Cart.handleRemove (sample_item "B" 50 2) r s) in
  items (rerender (Cart.fire tb (rerender (Cart.fire ta r))))
  = [sample_item "A" 100 1].
Proof.
  destruct (second_delayed_removal_restores_first sample_cart
              (sample_item "A" 100 1) (sample_item "B" 50 2)
              {| Cart.isRemoving := false; Cart.quantity := 1 |}
              {| Cart.isRemoving := false; Cart.quantity := 1 |})
    as (_ & Hitems & _).
  - left. reflexivity.
  - right. left. reflexivity.
  - discriminate.
  - simpl in *. rewrite Hitems. reflexivity.
Defined.

Lemma existsb_map_same_id target (f : CartItem -> CartItem) (its : list CartItem) :
  (forall item, id (f item) = id item) ->
  existsb (fun it => String.eqb (id it) target) (map f its)
  = existsb (fun it => String.eqb (id it) target) its.
Proof.
  intros Hf. induction its as [|x its IH]; simpl; [reflexivity|].
  now rewrite Hf, IH.
Qed.

Lemma in_cart_after_add e p its :
  existsb (fun it => String.eqb (id it) (event_id e)) (addToCart_updater e p its)
  = true.
Proof.
  destruct (existsb (fun it => String.eqb (id it) (event_id e)) its) eqn:E.
  - unfold addToCart_updater.
    destruct (find _ its) eqn:F; [|apply find_none_existsb in F; congruence].
    rewrite existsb_map_same_id; [exact E|].
    intros item. now destruct (String.eqb (id item) (event_id e)).
  - rewrite (addToCart_updater_absent e p its E), existsb_app. simpl.
    rewrite String.eqb_refl. apply orb_true_r.
Qed.

(** X14. The cart button of a card adds the event at the fixed price 100,
    whatever price the event carries: it issues no request, shows one
    "Added to Cart" toast, and after the re-render the event is in the
    card's cart, so the button is no longer rendered. Clicked while shown,
    it appends one entry of quantity 1. *)
Theorem card_adds_at_fixed_price
    (event : EventCard.Event) (its : list CartItem) (w : World) :
  exists h' w',
    EventCardCart.handleAddToCart event (rendered its) w = (Normal tt, h', w') /\
    trace w' = trace w ++
      [AddToast {| Toast.type := Toast.success;
                   Toast.title := "Added to Cart";
                   Toast.message := String.append (EventCard.title event)
                                                  " added to cart";
                   Toast.duration := Some 2000 |}] /\
    registrations w' = registrations w /\ faults w' = faults w /\
    EventCardCart.cartButtonShown event (rerender h') = false /\
    (EventCardCart.cartButtonShown event (rendered its) = true ->
     exists item,
       items (rerender h') = its ++ [item] /\
       id item = EventCard.id event /\ price item = 100 /\ quantity item = 1).
Proof.
  set (e := EventCardCart.cartEvent event).
  exists (addToCart e (Some 100) (rendered its)). eexists.
  split; [reflexivity|].
  split; [reflexivity|]. split; [reflexivity|]. split; [reflexivity|].
  assert (Hitems : items (rerender (addToCart e (Some 100) (rendered its)))
                   = addToCart_updater e 100 its) by reflexivity.
  unfold EventCardCart.cartButtonShown, isInCart. rewrite Hitems.
  change (EventCard.id event) with (event_id e).
  rewrite in_cart_after_add. split; [reflexivity|].
  intros Hshown. apply negb_true_iff in Hshown. simpl in Hshown.
  rewrite (addToCart_updater_absent e 100 its Hshown).
  eexists. split; [reflexivity|]. repeat split.
Qed.

Lemma card_adds_at_fixed_price_witness :
  exists h' w',
    EventCardCart.handleAddToCart sample_card (rendered []) (sample_world [])
      = (Normal tt, h', w') /\
    exists item, items (rerender h') = [item] /\ price item = 100.
Proof.
  destruct (card_adds_at_fixed_price sample_card [] (sample_world []))
    as (h' & w' & Hrun & _ & _ & _ & _ & Hnew).
  destruct (Hnew eq_refl) as (item & Hitems & _ & Hprice & _).
  exists h', w'. split; [exact Hrun|]. exists item. split; assumption.
Defined.

End CartPanelProperties.

(* ===================================================================== *)
(** * Further properties of the registration workflow *)
(* ===================================================================== *)

Section FurtherRegistrationProperties.

Ltac step_handler :=
  unfold registrations_delete, registrations_insert,
    registrations_select_maybeSingle, events_select_single,
    EventCard.setIsRegistered, EventCard.setRegistering,
    EventDetailPage.setIsRegistered, EventDetailPage.setRegistering,
    EventDetailPage.setShowPaymentQR, EventDetailPage.setPaymentQR,
    EventDetailPage.setEvent, EventDetailPage.setLoading,
    EventDetailPage.QRCode_toDataURL;
  unfold failed_response, addToast, console_error, request;
  unfold try_finally, try_catch, bind, get_state, set_state, get_world,
    set_world, throw, ret, next_fault;
  simpl; unfold emit, set_registrations; simpl.

Lemma other_rows_after_delete eid uid e' u' (rs : list Supabase.Registration) :
  e' <> eid \/ u' <> uid ->
  List.filter (matches e' u')
    (List.filter (fun row => negb (matches eid uid row)) rs)
  = List.filter (matches e' u') rs.
Proof.
  intros Hne. induction rs as [|r rs IH]; simpl; [reflexivity|].
  destruct (matches eid uid r) eqn:E; simpl.
  - rewrite IH. unfold matches in *.
    apply andb_true_iff in E as [E1 E2].
    apply String.eqb_eq in E1. apply String.eqb_eq in E2.
    destruct (String.eqb (Supabase.event_id r) e') eqn:F1;
      destruct (String.eqb (Supabase.user_id r) u') eqn:F2; simpl;
      try reflexivity.
    apply String.eqb_eq in F1. apply String.eqb_eq in F2.
    destruct Hne; congruence.
  - now rewrite IH.
Qed.

Lemma other_rows_after_insert eid uid e' u' (rs : list Supabase.Registration) :
  e' <> eid \/ u' <> uid ->
  List.filter (matches e' u') (rs ++ [registration_row eid uid])
  = List.filter (matches e' u') rs.
Proof.
  intros Hne. rewrite List.filter_app. simpl. unfold matches at 2. simpl.
  destruct (String.eqb eid e') eqn:F1; destruct (String.eqb uid u') eqn:F2;
    simpl; try apply app_nil_r.
  apply String.eqb_eq in F1. apply String.eqb_eq in F2.
  destruct Hne; congruence.
Qed.

(** Everything [handleRegister] of the card can do, whatever the user, the
    state and the fault schedule. *)
Lemma card_handleRegister_outcome
    (user : option Auth.User) (event : EventCard.Event)
    (s : EventCard.State) (w : World) :
  exists s' w',
    EventCard.handleRegister user event s w = (Normal tt, s', w') /\
    profiles w' = profiles w /\ events w' = events w /\
    (EventCard.registering s' = false \/ s' = s) /\
    (registrations w' = registrations w \/
     exists u, user = Some u /\
       (registrations w' =
          List.filter (fun row => negb (matches (EventCard.id event) (Auth.id u) row))
                      (registrations w) \/
        registrations w' =
          registrations w ++ [registration_row (EventCard.id event) (Auth.id u)])).
Proof.
  destruct user as [u|]; [|eexists _, _; split; [reflexivity|]; simpl; auto].
  destruct w as [pr es rs fl tr]. destruct s as [reg ring].
  unfold EventCard.handleRegister, bind at 1, get_state, bind at 1.
  rewrite checkProfileComplete_run. simpl.
  destruct fl as [|f1 [|f2 fl]]; try destruct f1; try destruct f2; simpl;
    try (eexists _, _; split; [reflexivity|]; simpl; auto; fail);
    (destruct (pr !! Auth.id u) as [p|];
     [ destruct (truthy (js_and _ _)); simpl
     | simpl ]);
    try (eexists _, _; split; [reflexivity|]; simpl; auto; fail);
    destruct reg; step_handler;
    (eexists _, _; split; [reflexivity|]; simpl;
     split; [reflexivity|]; split; [reflexivity|]; split; [auto|];
     first [ left; reflexivity
           | right; exists u; split; [reflexivity|]; left; reflexivity
           | right; exists u; split; [reflexivity|]; right; reflexivity ]).
Qed.

(** Everything [handleRegister] of the page can do. *)
Lemma page_handleRegister_outcome
    (QRCode_image : string -> string) (user : option Auth.User)
    (eventId : string) (s : EventDetailPage.State) (w : World) :
  exists s' w',
    EventDetailPage.handleRegister QRCode_image user eventId s w
      = (Normal tt, s', w') /\
    profiles w' = profiles w /\ events w' = events w /\
    (EventDetailPage.registering s' = false \/ s' = s) /\
    EventDetailPage.event s' = EventDetailPage.event s /\
    (EventDetailPage.isRegistered s = false ->
     registrations w' = registrations w /\
     EventDetailPage.isRegistered s' = false) /\
    (registrations w' = registrations w \/
     exists u, user = Some u /\
       registrations w' =
         List.filter (fun row => negb (matches eventId (Auth.id u) row))
                     (registrations w)) /\
    (EventDetailPage.showPaymentQR s' = EventDetailPage.showPaymentQR s \/
     EventDetailPage.isRegistered s = false /\
     EventDetailPage.showPaymentQR s' = true /\
     exists ev, EventDetailPage.event s = Some ev /\
       EventDetailPage.paymentQR s' =
         QRCode_image
           (String.concat ""
              ["upi://pay?pa="; "campusevents@upi"; "&pn=Campus Events&am=";
               "100"; "&cu=INR&tn=Payment for "; Supabase.title ev])).
Proof.
  destruct user as [u|];
    [|eexists _, _; split; [reflexivity|]; simpl; repeat split; auto].
  destruct w as [pr es rs fl tr]. destruct s as [ev ld reg ring qr url].
  unfold EventDetailPage.handleRegister, bind at 1, get_state, bind at 1.
  rewrite checkProfileComplete_run. simpl.
  destruct fl as [|f1 [|f2 fl]]; try destruct f1; try destruct f2; simpl;
    try (eexists _, _; split; [reflexivity|]; simpl; repeat split; auto; fail);
    (destruct (pr !! Auth.id u) as [p|];
     [ destruct (truthy (js_and _ _)); simpl
     | simpl ]);
    try (eexists _, _; split; [reflexivity|]; simpl; repeat split; auto; fail);
    destruct reg; destruct ev as [ev|];
    unfold EventDetailPage.generatePaymentQR; step_handler;
    (eexists _, _; split; [reflexivity|]; simpl;
     split; [reflexivity|]; split; [reflexivity|]; split; [auto|];
     split; [reflexivity|];
     split; [first [discriminate | intros _; split; reflexivity]|];
     split;
     [ first [ left; reflexivity
             | right; exists u; split; reflexivity ]
     | first [ left; reflexivity
             | right; split; [reflexivity|]; split; [reflexivity|];
               eexists; split; reflexivity ] ]).
Qed.

Ltac by_cases :=
  repeat (simpl;
          match goal with
          | |- context [match ?m !! ?k with _ => _ end] => destruct (m !! k)
          | |- context [match List.filter ?f ?l with _ => _ end] =>
              destruct (List.filter f l) as [|? [|? ?]]
          | |- context [String.eqb ?a ?b] => destruct (String.eqb a b)
          | |- context [if ?x then _ else _] => is_var x; destruct x
          | |- context [match ?x with _ => _ end] => is_var x; destruct x
          end).

(** X15. No handler of the registration workflow lets an exception escape:
    whatever the user, the state, the tables and the requests that fail,
    the mount effects, [handleRegister] of the card and of the page and
    [confirmPayment] end normally. *)
Theorem handlers_end_normally
    (user : option Auth.User) (event : EventCard.Event)
    (QRCode_image : string -> string) (eventId : string) :
  ends_normally (EventCard.registrationEffect user event) /\
  ends_normally (EventCard.handleRegister user event) /\
  ends_normally (EventDetailPage.loadEffect user eventId) /\
  ends_normally (EventDetailPage.handleRegister QRCode_image user eventId) /\
  ends_normally (EventDetailPage.confirmPayment user eventId).
Proof.
  split; [|split; [|split; [|split]]]; intros s w.
  - unfold EventCard.registrationEffect, EventCard.checkRegistration.
    destruct w as [pr es rs fl tr]. step_handler. by_cases;
      eexists _, _; reflexivity.
  - destruct (card_handleRegister_outcome user event s w) as (s' & w' & H & _).
    now exists s', w'.
  - unfold EventDetailPage.loadEffect, EventDetailPage.fetchEvent,
      EventDetailPage.checkRegistration.
    destruct w as [pr es rs fl tr]. step_handler. by_cases;
      eexists _, _; reflexivity.
  - destruct (page_handleRegister_outcome QRCode_image user eventId s w)
      as (s' & w' & H & _).
    now exists s', w'.
  - unfold EventDetailPage.confirmPayment.
    destruct w as [pr es rs fl tr]. step_handler. by_cases;
      eexists _, _; reflexivity.
Qed.

(** X16. The busy flags never stick: [handleRegister] of the card and of
    the page leaves [registering] false or leaves the state as it found it
    (a gate refused), and [fetchEvent] leaves [loading] false, whether the
    request succeeded or not. *)
Theorem busy_flags_are_cleared
    (user : option Auth.User) (event : EventCard.Event)
    (QRCode_image : string -> string) (eventId : string)
    (cs : EventCard.State) (ps : EventDetailPage.State) (w : World) :
  (let s' := fst (exec (EventCard.handleRegister user event) (cs, w)) in
   EventCard.registering s' = false \/ s' = cs) /\
  (let s' := fst (exec (EventDetailPage.handleRegister QRCode_image user eventId)
                       (ps, w)) in
   EventDetailPage.registering s' = false \/ s' = ps) /\
  (eventId <> "" ->
   EventDetailPage.loading
     (fst (exec (EventDetailPage.fetchEvent eventId) (ps, w))) = false).
Proof.
  split; [|split].
  - destruct (card_handleRegister_outcome user event cs w)
      as (s' & w' & H & _ & _ & Hbusy & _).
    unfold exec. simpl. rewrite H. exact Hbusy.
  - destruct (page_handleRegister_outcome QRCode_image user eventId ps w)
      as (s' & w' & H & _ & _ & Hbusy & _).
    unfold exec. simpl. rewrite H. exact Hbusy.
  - intros Hid. apply String.eqb_neq in Hid.
    unfold exec, EventDetailPage.fetchEvent. rewrite Hid.
    destruct w as [pr es rs fl tr]. step_handler. by_cases; reflexivity.
Qed.

Lemma busy_flags_are_cleared_witness :
  EventDetailPage.loading
    (fst (exec (EventDetailPage.fetchEvent "e1")
               (EventDetailPage.initial, sample_world [true]))) = false.
Proof.
  destruct (busy_flags_are_cleared None sample_card sample_image "e1"
              EventCard.initial EventDetailPage.initial (sample_world [true]))
    as (_ & _ & H).
  apply H. discriminate.
Defined.

Lemma confirmPayment_outcome
    (user : option Auth.User) (eventId : string)
    (s : EventDetailPage.State) (w : World) :
  exists s' w',
    EventDetailPage.confirmPayment user eventId s w = (Normal tt, s', w') /\
    profiles w' = profiles w /\ events w' = events w /\
    (registrations w' = registrations w \/
     exists u, user = Some u /\
       registrations w' = registrations w ++ [registration_row eventId (Auth.id u)]).
Proof.
  unfold EventDetailPage.confirmPayment.
  destruct user as [u|]; [|eexists _, _; split; [reflexivity|]; simpl; auto].
  destruct (String.eqb eventId "");
    [eexists _, _; split; [reflexivity|]; simpl; auto|].
  destruct w as [pr es rs fl tr]. destruct fl as [|[|] fl]; step_handler;
    (eexists _, _; split; [reflexivity|]; simpl;
     split; [reflexivity|]; split; [reflexivity|];
     first [left; reflexivity | right; exists u; split; reflexivity]).
Qed.

(** X17. The registration handlers write nothing but the rows of their own
    event and user: [handleRegister] of the card and of the page and
    [confirmPayment] leave the profiles, the events and the rows of every
    other event or user as they were. *)
Theorem registration_handlers_touch_one_pair
    (u : Auth.User) (event : EventCard.Event)
    (QRCode_image : string -> string) (eventId : string)
    (cs : EventCard.State) (ps : EventDetailPage.State) (w : World)
    (e' u' : string) :
  let w1 := snd (exec (EventCard.handleRegister (Some u) event) (cs, w)) in
  let w2 := snd (exec (EventDetailPage.handleRegister QRCode_image (Some u) eventId)
                      (ps, w)) in
  let w3 := snd (exec (EventDetailPage.confirmPayment (Some u) eventId) (ps, w)) in
  (profiles w1 = profiles w /\ events w1 = events w /\
   (e' <> EventCard.id event \/ u' <> Auth.id u -> rows_of e' u' w1 = rows_of e' u' w))
  /\
  (profiles w2 = profiles w /\ events w2 = events w /\
   (e' <> eventId \/ u' <> Auth.id u -> rows_of e' u' w2 = rows_of e' u' w))
  /\
  (profiles w3 = profiles w /\ events w3 = events w /\
   (e' <> eventId \/ u' <> Auth.id u -> rows_of e' u' w3 = rows_of e' u' w)).
Proof.
  unfold exec, rows_of. cbn [fst snd]. split; [|split].
  - destruct (card_handleRegister_outcome (Some u) event cs w)
      as (s' & w' & H & Hp & He & _ & Hr).
    rewrite H. simpl. split; [exact Hp|]. split; [exact He|]. intros Hne.
    destruct Hr as [->|(u0 & Hu & [->| ->])]; [reflexivity| |];
      injection Hu as <-.
    + now apply other_rows_after_delete.
    + now apply other_rows_after_insert.
  - destruct (page_handleRegister_outcome QRCode_image (Some u) eventId ps w)
      as (s' & w' & H & Hp & He & _ & _ & _ & Hr & _).
    rewrite H. simpl. split; [exact Hp|]. split; [exact He|]. intros Hne.
    destruct Hr as [->|(u0 & Hu & ->)]; [reflexivity|]. injection Hu as <-.
    now apply other_rows_after_delete.
  - destruct (confirmPayment_outcome (Some u) eventId ps w)
      as (s' & w' & H & Hp & He & Hr).
    rewrite H. simpl. split; [exact Hp|]. split; [exact He|]. intros Hne.
    destruct Hr as [->|(u0 & Hu & ->)]; [reflexivity|]. injection Hu as <-.
    now apply other_rows_after_insert.
Qed.

Lemma registration_handlers_touch_one_pair_witness :
  rows_of "e2" "u1"
    (snd (exec (EventCard.handleRegister (Some sample_user) sample_card)
               (EventCard.initial, sample_world [])))
  = rows_of "e2" "u1" (sample_world []).
Proof.
  destruct (registration_handlers_touch_one_pair sample_user sample_card
              sample_image "e1" EventCard.initial EventDetailPage.initial
              (sample_world []) "e2" "u1") as ((_ & _ & H) & _).
  apply H. left. discriminate.
Defined.

(** X18. On the page the register button alone never registers: from an
    unregistered state, whatever the user, the tables and the faults,
    [handleRegister] leaves [registrations] and [isRegistered] as they are.
    When it opens the payment dialog the event is loaded and the code shown
    is that of a UPI text with the amount 100 and the event's title,
    whatever the price of the event. *)
Theorem page_register_button_never_inserts
    (QRCode_image : string -> string) (user : option Auth.User)
    (eventId : string) (s : EventDetailPage.State) (w : World) :
  EventDetailPage.isRegistered s = false ->
  let s' := fst (exec (EventDetailPage.handleRegister QRCode_image user eventId)
                      (s, w)) in
  let w' := snd (exec (EventDetailPage.handleRegister QRCode_image user eventId)
                      (s, w)) in
  registrations w' = registrations w /\
  EventDetailPage.isRegistered s' = false /\
  (EventDetailPage.showPaymentQR s = false ->
   EventDetailPage.showPaymentQR s' = true ->
   exists ev, EventDetailPage.event s = Some ev /\
     EventDetailPage.paymentQR s' =
       QRCode_image
         (String.concat ""
            ["upi://pay?pa="; "campusevents@upi"; "&pn=Campus Events&am=";
             "100"; "&cu=INR&tn=Payment for "; Supabase.title ev])).
Proof.
  intros Hreg.
  destruct (page_handleRegister_outcome QRCode_image user eventId s w)
    as (s' & w' & H & _ & _ & _ & _ & Hun & _ & Hqr).
  unfold exec. simpl. rewrite H. simpl.
  destruct (Hun Hreg) as [Hr Hflag]. split; [exact Hr|]. split; [exact Hflag|].
  intros Hclosed Hopen. destruct Hqr as [Hsame|(_ & _ & Hev)]; [congruence|].
  exact Hev.
Qed.

Lemma page_register_button_never_inserts_witness :
  registrations
    (snd (exec (EventDetailPage.handleRegister sample_image (Some sample_user) "e1")
               (EventDetailPage.initial, sample_world [])))
  = registrations (sample_world []).
Proof.
  apply (page_register_button_never_inserts sample_image (Some sample_user) "e1"
           EventDetailPage.initial (sample_world [])).
  reflexivity.
Defined.

(** X19. [confirmPayment] asks neither for a complete profile nor whether the
    user is registered already: with a user and an event id it issues the
    insert, and when the insert succeeds one more row exists, [isRegistered]
    is set and the dialog is closed. Without a user or an event id it does
    nothing at all. *)
Theorem confirmPayment_is_unguarded
    (user : option Auth.User) (eventId : string)
    (s : EventDetailPage.State) (w : World) :
  (user = None \/ eventId = "" ->
   EventDetailPage.confirmPayment user eventId s w = (Normal tt, s, w)) /\
  (forall u, user = Some u -> eventId <> "" -> hd false (faults w) = false ->
   let s' := fst (exec (EventDetailPage.confirmPayment user eventId) (s, w)) in
   let w' := snd (exec (EventDetailPage.confirmPayment user eventId) (s, w)) in
   registrations w' = registrations w ++ [registration_row eventId (Auth.id u)] /\
   row_count eventId (Auth.id u) w' = S (row_count eventId (Auth.id u) w) /\
   EventDetailPage.isRegistered s' = true /\
   EventDetailPage.showPaymentQR s' = false).
Proof.
  unfold EventDetailPage.confirmPayment. split.
  - intros [->| ->]; [reflexivity|]. destruct user; reflexivity.
  - intros u -> Hid Hok. apply String.eqb_neq in Hid. rewrite Hid.
    destruct w as [pr es rs fl tr]. unfold exec, row_count.
    destruct fl as [|[|] fl]; try discriminate; step_handler;
      rewrite row_count_inserted; repeat split.
Qed.

Lemma confirmPayment_is_unguarded_witness :
  let once := exec (EventDetailPage.confirmPayment (Some sample_user) "e1")
                   (EventDetailPage.initial, sample_world []) in
  row_count "e1" "u1"
    (snd (exec (EventDetailPage.confirmPayment (Some sample_user) "e1") once))
  = S (row_count "e1" "u1" (snd once)).
Proof.
  intros once.
  destruct (confirmPayment_is_unguarded (Some sample_user) "e1"
              (fst once) (snd once)) as [_ H].
  destruct (H sample_user eq_refl) as (_ & Hcount & _).
  - discriminate.
  - reflexivity.
  - exact Hcount.
Defined.

(** X20. The card decides between delete and insert on its own flag, which
    only a successful check at mount sets. When that check fails, or finds
    the row twice, the error is written to the console without a toast and
    the flag stays false although the row exists; the next click then
    issues an insert, and when the store accepts it there is one row more. *)
Theorem missed_row_is_inserted_again
    (u : Auth.User) (p : Supabase.Profile) (event : EventCard.Event) (w : World) :
  profiles w !! Auth.id u = Some p -> complete p ->
  EventCard.id event <> "" ->
  (faults w = [true] /\ (1 <= row_count (EventCard.id event) (Auth.id u) w)%nat) \/
  (faults w = [] /\ (2 <= row_count (EventCard.id event) (Auth.id u) w)%nat) ->
  let sw1 := exec (EventCard.registrationEffect (Some u) event)
                  (EventCard.initial, w) in
  let sw2 := exec (EventCard.handleRegister (Some u) event) sw1 in
  EventCard.isRegistered (fst sw1) = false /\
  registrations (snd sw1) = registrations w /\
  (exists err,
     trace (snd sw1) = trace w ++
       [Requested (Supabase.SelectRegistration (EventCard.id event) (Auth.id u));
        ConsoleError "Error checking registration:" err]) /\
  registrations (snd sw2)
    = registrations w ++ [registration_row (EventCard.id event) (Auth.id u)] /\
  EventCard.isRegistered (fst sw2) = true.
Proof.
  intros Hp Hc Hid Hcase. apply String.eqb_neq in Hid.
  destruct w as [pr es rs fl tr]. simpl in *.
  unfold exec, EventCard.registrationEffect, EventCard.checkRegistration,
    row_count in *.
  rewrite Hid. simpl in *.
  destruct Hcase as [[-> Hrow]|[-> Hrow]]; step_handler.
  - rewrite (card_register_run u p event false pr es rs _ Hp Hc). simpl.
    rewrite <- app_assoc. simpl. repeat split. eexists. reflexivity.
  - destruct (List.filter (matches (EventCard.id event) (Auth.id u)) rs)
      as [|r [|r' l]] eqn:E; simpl in Hrow; try lia. simpl.
    rewrite (card_register_run u p event false pr es rs _ Hp Hc). simpl.
    rewrite <- app_assoc. simpl. repeat split. eexists. reflexivity.
Qed.

Lemma missed_row_is_inserted_again_witness :
  let w := {| profiles := {["u1" := sample_profile]}; events := ∅;
              registrations := [registration_row "e1" "u1"];
              faults := [true]; trace := [] |} in
  registrations
    (snd (exec (EventCard.handleRegister (Some sample_user) sample_card)
               (exec (EventCard.registrationEffect (Some sample_user) sample_card)
                     (EventCard.initial, w))))
  = [registration_row "e1" "u1"; registration_row "e1" "u1"].
Proof.
  intros w.
  destruct (missed_row_is_inserted_again sample_user sample_profile sample_card w)
    as (_ & _ & _ & Hrows & _).
  - reflexivity.
  - exact sample_profile_complete.
  - discriminate.
  - left. split; [reflexivity|]. unfold row_count. simpl. lia.
  - exact Hrows.
Defined.

(** X21. [fetchEvent] stores the row of the event when the request succeeds
    and the row exists, without any toast. When the request fails or no
    row has that id it leaves [event] as it was (so a page that never had
    one shows "Event Not Found"), logs the error and shows one "Failed to
    load event details" toast. It never touches [isRegistered] or the
    tables. *)
Theorem fetchEvent_loads_or_reports
    (eventId : string) (s : EventDetailPage.State) (w : World) :
  eventId <> "" ->
  let s' := fst (exec (EventDetailPage.fetchEvent eventId) (s, w)) in
  let w' := snd (exec (EventDetailPage.fetchEvent eventId) (s, w)) in
  (forall ev, hd false (faults w) = false -> events w !! eventId = Some ev ->
     EventDetailPage.event s' = Some ev /\
     trace w' = trace w ++ [Requested (Supabase.SelectEvent eventId)]) /\
  (hd false (faults w) = true \/ events w !! eventId = None ->
     EventDetailPage.event s' = EventDetailPage.event s /\
     exists err,
       trace w' = trace w ++
         [Requested (Supabase.SelectEvent eventId);
          ConsoleError "Error fetching event:" err;
          AddToast {| Toast.type := Toast.error;
                      Toast.title := "Error";
                      Toast.message := "Failed to load event details";
                      Toast.duration := None |}]) /\
  EventDetailPage.isRegistered s' = EventDetailPage.isRegistered s /\
  registrations w' = registrations w /\ events w' = events w.
Proof.
  intros Hid. apply String.eqb_neq in Hid.
  unfold exec, EventDetailPage.fetchEvent. rewrite Hid.
  destruct w as [pr es rs fl tr]. destruct s as [ev0 ld reg ring qr url].
  destruct fl as [|[|] fl]; step_handler;
    destruct (es !! eventId) as [ev|] eqn:Hev; simpl;
    rewrite <- ?app_assoc; simpl;
    (split; [intros ev' Hok Hlook; try discriminate;
             injection Hlook as <-; split; reflexivity|]);
    (split; [intros [Hbad|Hnone]; try discriminate;
             (split; [reflexivity|eexists; reflexivity])|]);
    repeat split.
Qed.

Lemma fetchEvent_loads_or_reports_witness :
  EventDetailPage.event
    (fst (exec (EventDetailPage.fetchEvent "e1")
               (EventDetailPage.initial, sample_world [])))
  = Some sample_row.
Proof.
  destruct (fetchEvent_loads_or_reports "e1" EventDetailPage.initial
              (sample_world [])) as (Hok & _).
  - discriminate.
  - destruct (Hok sample_row eq_refl eq_refl) as [Hev _]. exact Hev.
Defined.

End FurtherRegistrationProperties.

(* ===================================================================== *)
(** * Properties of the payment modal, the badges and the home page *)
(* ===================================================================== *)

Section ShellProperties.

Lemma payment_step_keeps (amount : Z) (sl : PaymentModal.State * list PaymentModal.Effect)
    (i : PaymentModal.Input) :
  PaymentModal.paymentStatus (fst sl) <> PaymentModal.processing ->
  Forall (opens_in_paise amount) (snd sl) ->
  (PaymentModal.razorpayLoaded (fst sl) = false -> existsb is_open (snd sl) = false) ->
  let sl' := PaymentModal.step amount sl i in
  PaymentModal.paymentStatus (fst sl') <> PaymentModal.processing /\
  Forall (opens_in_paise amount) (snd sl') /\
  (PaymentModal.razorpayLoaded (fst sl') = false -> existsb is_open (snd sl') = false).
Proof.
  destruct sl as [[st ld] log]. simpl. intros Hst Hlog Hld.
  destruct i as [isOpen| | | | |]; simpl;
    unfold PaymentModal.openEffect, PaymentModal.payDisabled,
      PaymentModal.handleRazorpayPayment; simpl;
    try destruct isOpen; destruct ld; destruct st; simpl;
    rewrite ?app_nil_r; try congruence;
    (split; [try assumption; discriminate|]);
    (split;
     [ try assumption;
       (apply Forall_app; split; [exact Hlog|repeat constructor])
     | try assumption; try discriminate;
       intros H; rewrite existsb_app; simpl; rewrite (Hld H); reflexivity ]).
Qed.

(** X22. Whatever happens to a mounted payment modal, its status is never
    'processing' (so the pay button is disabled exactly while the checkout
    script is not loaded), the checkout is never opened before the script
    has loaded, and every checkout is opened in INR with one hundred times
    the amount of the modal. *)
Theorem payment_modal_opens_loaded_checkout_in_paise
    (amount : Z) (inputs : list PaymentModal.Input) :
  let s := fst (PaymentModal.run amount inputs) in
  let log := snd (PaymentModal.run amount inputs) in
  PaymentModal.paymentStatus s <> PaymentModal.processing /\
  PaymentModal.payDisabled s = negb (PaymentModal.razorpayLoaded s) /\
  Forall (opens_in_paise amount) log /\
  (PaymentModal.razorpayLoaded s = false -> existsb is_open log = false).
Proof.
  assert (Hgen : forall inputs sl,
    PaymentModal.paymentStatus (fst sl) <> PaymentModal.processing ->
    Forall (opens_in_paise amount) (snd sl) ->
    (PaymentModal.razorpayLoaded (fst sl) = false -> existsb is_open (snd sl) = false) ->
    let sl' := fold_left (PaymentModal.step amount) inputs sl in
    PaymentModal.paymentStatus (fst sl') <> PaymentModal.processing /\
    Forall (opens_in_paise amount) (snd sl') /\
    (PaymentModal.razorpayLoaded (fst sl') = false -> existsb is_open (snd sl') = false)).
  { clear inputs. induction inputs as [|i inputs IH]; intros sl H1 H2 H3; simpl.
    - auto.
    - destruct (payment_step_keeps amount sl i H1 H2 H3) as (K1 & K2 & K3).
      now apply IH. }
  destruct (Hgen inputs (PaymentModal.initial, [])) as (K1 & K2 & K3).
  { discriminate. }
  { constructor. }
  { reflexivity. }
  unfold PaymentModal.run. simpl. split; [exact K1|]. split; [|split; assumption].
  unfold PaymentModal.payDisabled.
  destruct (PaymentModal.paymentStatus _); try congruence; apply orb_false_r.
Qed.

Lemma payment_modal_opens_loaded_checkout_in_paise_witness :
  existsb is_open
    (snd (PaymentModal.run 250 [PaymentModal.IsOpen true; PaymentModal.ClickPay]))
  = false.
Proof.
  destruct (payment_modal_opens_loaded_checkout_in_paise 250
              [PaymentModal.IsOpen true; PaymentModal.ClickPay])
    as (_ & _ & _ & H).
  apply H. reflexivity.
Defined.

(** X23. The count over the cart button of [BottomNavigation] and over
    [CartIcon] is absent exactly when the total number of items is not
    above zero. Otherwise [BottomNavigation] shows "9+" exactly above 9 and
    the total itself, a number above 0 and at most 9, else; [CartIcon] does
    the same with "99+" and 99. The two components show the same count
    exactly for totals of at most 9. *)
Theorem cart_badges_are_bounded (h : useCart.Hook) :
  let total := useCart.getTotalItems h in
  (BottomNavigation.badge h = None <-> total <= 0) /\
  (CartIcon.badge h = None <-> total <= 0) /\
  (BottomNavigation.badge h = Some (BottomNavigation.Text "9+") <-> 9 < total) /\
  (CartIcon.badge h = Some (BottomNavigation.Text "99+") <-> 99 < total) /\
  (forall n, BottomNavigation.badge h = Some (BottomNavigation.Number n) <->
             n = total /\ 0 < n <= 9) /\
  (forall n, CartIcon.badge h = Some (BottomNavigation.Number n) <->
             n = total /\ 0 < n <= 99) /\
  (forall t, BottomNavigation.badge h = Some (BottomNavigation.Text t) ->
             t = "9+") /\
  (forall t, CartIcon.badge h = Some (BottomNavigation.Text t) -> t = "99+") /\
  (BottomNavigation.badge h = CartIcon.badge h <-> total <= 9).
Proof.
  unfold BottomNavigation.badge, CartIcon.badge.
  set (n := useCart.getTotalItems h). clearbody n. cbv zeta.
  destruct (Z.ltb_spec 0 n) as [E0|E0];
    destruct (Z.ltb_spec 9 n) as [E9|E9];
    destruct (Z.ltb_spec 99 n) as [E99|E99]; try lia;
    repeat match goal with
           | |- _ /\ _ => split
           | |- _ <-> _ => split
           | |- forall _, _ => intro
           end;
    try discriminate; try reflexivity; try lia;
    try match goal with
        | H : Some _ = Some _ |- _ => inversion H; subst; clear H
        end;
    try match goal with
        | H : _ /\ _ |- _ => destruct H as [-> ?]
        end;
    try reflexivity; try lia; try (split; lia).
Qed.

Lemma prefix_append (n post : string) : String.prefix n (n ++ post)%string = true.
Proof.
  induction n as [|c n IH]; simpl; [destruct post; reflexivity|].
  destruct (Ascii.ascii_dec c c); [exact IH|congruence].
Qed.

Lemma includes_append (n pre post : string) :
  BottomNavigation.includes n (pre ++ n ++ post)%string = true.
Proof.
  induction pre as [|c pre IH].
  - change ("" ++ n ++ post)%string with (n ++ post)%string.
    pose proof (prefix_append n post) as Hp.
    destruct (n ++ post)%string; cbn [BottomNavigation.includes];
      rewrite Hp; reflexivity.
  - simpl. rewrite IH. apply orb_true_r.
Qed.

(** X24. [isAdmin] is a substring test: a user is an admin exactly when the
    email contains "admin" somewhere (the comparison with
    "admin@campus.com" adds nothing to it), so every address of the form
    [pre ++ "admin" ++ post] is one; a missing user or email is not. *)
Theorem isAdmin_is_a_substring_test (user : option BottomNavigation.User) :
  BottomNavigation.isAdmin user
    = match user with
      | Some {| BottomNavigation.email := Some e |} =>
          BottomNavigation.includes "admin" e
      | _ => false
      end /\
  forall pre post : string,
    BottomNavigation.isAdmin
      (Some {| BottomNavigation.email := Some (pre ++ "admin" ++ post)%string |})
    = true.
Proof.
  split.
  - destruct user as [[[e|]]|]; try reflexivity. unfold BottomNavigation.isAdmin.
    destruct (String.eqb e "admin@campus.com") eqn:E; [|apply orb_false_r].
    apply String.eqb_eq in E. subst e. reflexivity.
  - intros pre post. unfold BottomNavigation.isAdmin.
    now rewrite includes_append.
Qed.

Lemma welcome_signed_in_step (u : HomePage.User) (l : bool)
    (store : gmap string string) (w : World) :
  let shown := match store !! "welcomeToastShown" with
               | Some (String _ _) => true
               | _ => false
               end in
  let sw' := exec (HomePage.welcomeEffect (Some u) l) (store, w) in
  (toast_count (trace (snd sw'))
   = toast_count (trace w) + (if l || shown then 0 else 1))%nat /\
  match fst sw' !! "welcomeToastShown" with
  | Some (String _ _) => true
  | _ => false
  end = negb l || shown /\
  registrations (snd sw') = registrations w.
Proof.
  unfold exec, HomePage.welcomeEffect, toast_count. destruct w as [pr es rs fl tr].
  destruct l; simpl.
  - destruct (store !! "welcomeToastShown") as [[|c v]|]; repeat split; lia.
  - unfold bind, get_state, set_state, addToast, set_world, ret, emit. simpl.
    destruct (store !! "welcomeToastShown") as [[|c v]|] eqn:E; simpl;
      rewrite ?E, ?lookup_insert_eq, ?List.filter_app, ?length_app; simpl;
      repeat split; lia.
Qed.

(** X25. While a user stays signed in the welcome toast is shown at most
    once, however often the effect runs, and nothing is shown while the
    session is still loading. A run of the effect without a user forgets
    that it was shown, so the next sign-in shows it again. *)
Theorem welcome_toast_once_per_sign_in
    (u : HomePage.User) (loadings : list bool)
    (store : gmap string string) (w : World) :
  let signed_in := welcome_run (map (fun l => (Some u, l)) loadings) (store, w) in
  let signed_out := exec (HomePage.welcomeEffect None false) signed_in in
  let again := exec (HomePage.welcomeEffect (Some u) false) signed_out in
  (toast_count (trace (snd signed_in)) <= toast_count (trace w) + 1)%nat /\
  (forall user, exec (HomePage.welcomeEffect user true) (store, w) = (store, w)) /\
  fst signed_out !! "welcomeToastShown" = None /\
  toast_count (trace (snd again))
    = S (toast_count (trace (snd signed_in))) /\
  fst again !! "welcomeToastShown" = Some "true".
Proof.
  assert (Hgen : forall loadings store w,
    (toast_count (trace (snd (welcome_run (map (fun l => (Some u, l)) loadings)
                                (store, w))))
     <= toast_count (trace w)
        + (if match store !! "welcomeToastShown" with
              | Some (String _ _) => true
              | _ => false
              end then 0 else 1))%nat).
  { clear. unfold welcome_run.
    induction loadings as [|l ls IH]; intros store w;
      cbn [map fold_left fst snd].
    - lia.
    - destruct (welcome_signed_in_step u l store w) as (Hc & Hk & _).
      destruct (exec (HomePage.welcomeEffect (Some u) l) (store, w)) as [st1 w1].
      cbn [fst snd] in *. specialize (IH st1 w1). rewrite Hk in IH.
      destruct l; destruct (match store !! "welcomeToastShown" with
                            | Some (String _ _) => true
                            | _ => false
                            end); simpl in *; lia. }
  cbv zeta. destruct (welcome_run _ (store, w)) as [st1 w1] eqn:Hrun.
  assert (Hout : exec (HomePage.welcomeEffect None false) (st1, w1)
                 = (delete "welcomeToastShown" st1, w1)) by reflexivity.
  rewrite Hout. cbn [fst snd].
  split; [|split; [|split; [|split]]].
  - specialize (Hgen loadings store w). rewrite Hrun in Hgen. cbn [snd] in Hgen.
    destruct (match store !! "welcomeToastShown" with
              | Some (String _ _) => true
              | _ => false
              end); lia.
  - intros [user|]; reflexivity.
  - apply lookup_delete_eq.
  - destruct (welcome_signed_in_step u false (delete "welcomeToastShown" st1) w1)
      as (Hc & _).
    cbv zeta in Hc. rewrite lookup_delete_eq in Hc. rewrite Hc. simpl. lia.
  - unfold exec, HomePage.welcomeEffect, bind, get_state, set_state, addToast,
      set_world, ret. simpl.
    rewrite lookup_delete_eq. simpl. apply lookup_insert_eq.
Qed.

(** X26. The flag of the sign-in dialog round-trips through
    [localStorage]: what the effect writes is what the next start reads,
    also after any session of the cart hook, which in turn starts from the
    same cart whether the flag was written or not. A missing key, or any
    value other than "true", reads as closed. *)
Theorem authModalOpen_round_trips
    (JSON_stringify : list useCart.CartItem -> string)
    (JSON_parse : string -> option (list useCart.CartItem))
    (isAuthModalOpen : bool) (b : useCart.Browser) (ss : list useCart.Step) :
  fst (HomePage.initialAuthModalOpen (HomePage.authModalEffect isAuthModalOpen b))
    = isAuthModalOpen /\
  fst (HomePage.initialAuthModalOpen
         (snd (useCart.run_in JSON_stringify ss
                 (useCart.mount JSON_stringify JSON_parse
                    (HomePage.authModalEffect isAuthModalOpen b)))))
    = isAuthModalOpen /\
  fst (useCart.mount JSON_stringify JSON_parse
         (HomePage.authModalEffect isAuthModalOpen b))
    = fst (useCart.mount JSON_stringify JSON_parse b) /\
  (forall s, useCart.localStorage b !! "authModalOpen" = Some s -> s <> "true" ->
             fst (HomePage.initialAuthModalOpen b) = false) /\
  (useCart.localStorage b !! "authModalOpen" = None ->
   fst (HomePage.initialAuthModalOpen b) = false).
Proof.
  unfold HomePage.initialAuthModalOpen, HomePage.authModalEffect,
    useCart.getItem, useCart.setItem.
  split; [|split; [|split; [|split]]].
  - simpl. rewrite lookup_insert_eq. now destruct isAuthModalOpen.
  - simpl.
    destruct (run_in_frame JSON_stringify ss
                (useCart.mount JSON_stringify JSON_parse
                   {| useCart.localStorage :=
                        <["authModalOpen" :=
                            HomePage.String_of_boolean isAuthModalOpen]>
                          (useCart.localStorage b);
                      useCart.calls :=
                        useCart.calls b
                        ++ [useCart.SetItem "authModalOpen"
                              (HomePage.String_of_boolean isAuthModalOpen)] |}))
      as [Hk _].
    rewrite Hk by discriminate.
    destruct (mount_frame JSON_stringify JSON_parse
                {| useCart.localStorage :=
                     <["authModalOpen" :=
                         HomePage.String_of_boolean isAuthModalOpen]>
                       (useCart.localStorage b);
                   useCart.calls :=
                     useCart.calls b
                     ++ [useCart.SetItem "authModalOpen"
                           (HomePage.String_of_boolean isAuthModalOpen)] |})
      as [Hk' _].
    rewrite Hk' by discriminate. simpl.
    rewrite lookup_insert_eq. now destruct isAuthModalOpen.
  - unfold useCart.mount, useCart.initialItems, useCart.getItem. simpl.
    rewrite lookup_insert_ne by discriminate.
    destruct (useCart.localStorage b !! "cart") as [s|]; [|reflexivity].
    destruct (String.eqb s ""); [reflexivity|].
    destruct (JSON_parse s); reflexivity.
  - intros s Hs Hne. simpl. rewrite Hs. now apply String.eqb_neq.
  - intros Hs. simpl. now rewrite Hs.
Qed.

Lemma authModalOpen_round_trips_witness :
  fst (HomePage.initialAuthModalOpen
         {| useCart.localStorage := {["authModalOpen" := "TRUE"]};
            useCart.calls := [] |}) = false.
Proof.
  destruct (authModalOpen_round_trips sample_stringify sample_parse true
              {| useCart.localStorage := {["authModalOpen" := "TRUE"]};
                 useCart.calls := [] |} []) as (_ & _ & _ & H & _).
  apply (H "TRUE"); [reflexivity|discriminate].
Defined.

End ShellProperties.
